(** * AutoCommit: scheduling a one-shot git commit of a folder

    A shallow embedding of [schedule_git_commit.py] and
    [git_commit_executor.py].

    - Python [str] values are [string]s (the embedding is exact on ASCII
      text); Python [int]s are [Z].
    - A normalised absolute POSIX path, as [os.path.abspath] returns it, is
      the list of its components, root first: ["/repo/src"] is
      [["repo"; "src"]] and ["/"] is [[]].
    - A path that starts with exactly two slashes, which [os.path.abspath]
      leaves as it is, names the same directory as its spelling with one
      slash and is identified with it.
    - The filesystem is a finite map from paths to nodes; where the system
      resolves a path itself ([os.chdir]) it does so one component at a
      time.
    - Everything outside the interpreter that the scripts talk to through
      [subprocess] (git, which, launchctl) is a parameter [exec] of the
      development: the theorems hold for every behaviour of those tools.
    - Code that raises is modelled in a state-and-exception monad.
    - Not modelled: symbolic links, file permissions, limits on the length
      of names, names that differ in case only (they are different names
      here), a working directory that was removed under the process, the
      environment apart from the home directory, and interrupts from the
      keyboard. *)

From Equations Require Import Equations.
From stdpp Require Import base option list strings gmap pretty.
From Stdlib Require Import ZArith Ascii.
From Stdlib Require String.

Local Open Scope Z_scope.

(* ===================================================================== *)
(** * Strings *)
(* ===================================================================== *)

Module Str.

(** [s.split(sep)] for a one-character separator: never the empty list. *)
Fixpoint split_on (sep : ascii) (s : string) : list string :=
  match s with
  | EmptyString => [EmptyString]
  | String c rest =>
      if Ascii.eqb c sep then EmptyString :: split_on sep rest
      else match split_on sep rest with
           | [] => [String c EmptyString]
           | h :: t => String c h :: t
           end
  end.

(** [s.replace(c, '')] for a one-character [c]. *)
Fixpoint remove_char (c : ascii) (s : string) : string :=
  match s with
  | EmptyString => EmptyString
  | String a rest =>
      if Ascii.eqb a c then remove_char c rest else String a (remove_char c rest)
  end.

Definition is_upper (c : ascii) : bool :=
  let n := nat_of_ascii c in ((65 <=? n) && (n <=? 90))%nat.

Definition lower_char (c : ascii) : ascii :=
  if is_upper c then ascii_of_nat (nat_of_ascii c + 32) else c.

(** [s.lower()] on ASCII text. *)
Fixpoint lower (s : string) : string :=
  match s with
  | EmptyString => EmptyString
  | String a rest => String (lower_char a) (lower rest)
  end.

(** The characters [str.strip] treats as white space: tab to carriage
    return, the four separators 28 to 31, and the space. *)
Definition is_space (c : ascii) : bool :=
  let n := nat_of_ascii c in
  (((9 <=? n) && (n <=? 13)) || ((28 <=? n) && (n <=? 32)))%nat.

(** The characters the parser of [int] skips around a number, those of C's
    [isspace]: tab to carriage return and the space. The separators 28 to
    31 are not among them. *)
Definition is_c_space (c : ascii) : bool :=
  let n := nat_of_ascii c in
  (((9 <=? n) && (n <=? 13)) || (n =? 32))%nat.

Fixpoint lstrip_of (space : ascii → bool) (s : string) : string :=
  match s with
  | EmptyString => EmptyString
  | String a rest => if space a then lstrip_of space rest else s
  end.

Definition to_list (s : string) : list ascii := String.list_ascii_of_string s.
Definition of_list (l : list ascii) : string := String.string_of_list_ascii l.

Definition rstrip_of (space : ascii → bool) (s : string) : string :=
  of_list (rev (to_list (lstrip_of space (of_list (rev (to_list s)))))).

Definition strip_of (space : ascii → bool) (s : string) : string :=
  rstrip_of space (lstrip_of space s).

(** [s.strip()] *)
Definition strip (s : string) : string := strip_of is_space s.

(** The string holds a NUL character: no system call takes such a name. *)
Definition has_nul (s : string) : bool := existsb (Ascii.eqb "000") (to_list s).

(** The control characters that the XML writer of [plistlib] refuses in a
    string: all below the space except tab, line feed and carriage
    return. *)
Definition is_control (c : ascii) : bool :=
  let n := nat_of_ascii c in
  ((n <? 32) && negb ((n =? 9) || (n =? 10) || (n =? 13)))%nat.

Definition is_digit (c : ascii) : bool :=
  let n := nat_of_ascii c in ((48 <=? n) && (n <=? 57))%nat.

Definition digit_val (c : ascii) : Z := Z.of_nat (nat_of_ascii c) - 48.

Definition digit_char (d : Z) : ascii := ascii_of_nat (Z.to_nat (d mod 10) + 48).

(** Zero-padded decimal fields of [strftime]. *)
Definition pad2 (n : Z) : string :=
  String (digit_char (n / 10)) (String (digit_char n) EmptyString).

Definition pad4 (n : Z) : string :=
  String (digit_char (n / 1000)) (String (digit_char (n / 100)) (pad2 n)).

Definition concat (l : list string) : string := foldr String.append "" l.

Definition hex_digit (n : nat) : ascii :=
  ascii_of_nat (if (n <? 10)%nat then n + 48 else n + 87).

(** One character of [repr(s)], inside the quotes [quote]. *)
Definition repr_char (quote c : ascii) : string :=
  let n := nat_of_ascii c in
  if Ascii.eqb c quote || Ascii.eqb c "092" then String "092" (String c EmptyString)
  else if (n =? 9)%nat then String "092" "t"
  else if (n =? 10)%nat then String "092" "n"
  else if (n =? 13)%nat then String "092" "r"
  else if ((n <? 32) || (n =? 127))%nat then
    String "092" (String "x" (String (hex_digit (n / 16))
                                (String (hex_digit (n mod 16)) EmptyString)))
  else String c EmptyString.

(** [repr(s)]: in single quotes, or in double quotes when [s] holds a
    single quote and no double quote. *)
Definition repr (s : string) : string :=
  let has c := existsb (Ascii.eqb c) (to_list s) in
  let quote := (if has "039" && negb (has "034") then "034" else "039")%char in
  String quote (concat (map (repr_char quote) (to_list s)) +:+ String quote EmptyString).

(** The line feed. *)
Definition nl : string := String "010" EmptyString.

End Str.

(* ===================================================================== *)
(** * Paths ([os.path]) *)
(* ===================================================================== *)

Abbreviation path := (list string).

Module Path.

Definition norm_step (acc : path) (c : string) : path :=
  if decide (c = "" ∨ c = ".") then acc
  else if decide (c = "..") then removelast acc
  else acc ++ [c].

Definition is_absolute (p : string) : bool :=
  match p with String "/"%char _ => true | _ => false end.

(** [os.path.abspath(p)] when the process works in [cwd]. *)
Definition abspath (cwd : path) (p : string) : path :=
  foldl norm_step (if is_absolute p then [] else cwd) (Str.split_on "/"%char p).

(** [os.path.dirname] on a normalised absolute path; the root is its own
    parent. *)
Definition dirname (p : path) : path := removelast p.

(** [os.path.basename] on a normalised absolute path. *)
Definition basename (p : path) : string := default "" (last p).

(** [os.path.join(p, name)] for a single component [name]. *)
Definition join (p : path) (name : string) : path := p ++ [name].

(** The text of a path. *)
Definition str (p : path) : string :=
  match p with
  | [] => "/"
  | _ => Str.concat (map (String.append "/") p)
  end.

Fixpoint strip_common (start p : path) : path * path :=
  match start, p with
  | a :: start', b :: p' =>
      if decide (a = b) then strip_common start' p' else (start, p)
  | _, _ => (start, p)
  end.

Fixpoint join_rel (l : list string) : string :=
  match l with
  | [] => ""
  | [c] => c
  | c :: rest => c +:+ "/" +:+ join_rel rest
  end.

(** [os.path.relpath(p, start)] on normalised absolute paths. *)
Definition relpath (p start : path) : string :=
  let '(up, down) := strip_common start p in
  match (map (fun _ => "..") up ++ down)%list with
  | [] => "."
  | l => join_rel l
  end.

(** [os.path.expanduser]: only the current user's home is known. *)
Definition expanduser (home : path) (p : string) : string :=
  match p with
  | String "~"%char EmptyString => str home
  | String "~"%char (String "/"%char rest) =>
      match home with
      | [] => String "/"%char rest
      | _ => str home +:+ String "/"%char rest
      end
  | _ => p
  end.

End Path.

(* ===================================================================== *)
(** * The filesystem *)
(* ===================================================================== *)

(** One-shot calendar trigger and job definition written by the setup. *)
Record calendar_interval := CalendarInterval {
  ci_month : Z; ci_day : Z; ci_hour : Z; ci_minute : Z
}.

Record plist := Plist {
  Label : string;
  ProgramArguments : list string;
  StartCalendarInterval : calendar_interval;
  StandardOutPath : string;
  StandardErrorPath : string;
  RunAtLoad : bool
}.

(** The strings of a job definition, in the order [plistlib.dump] writes
    them (the keys of a dictionary are written sorted). *)
Definition plist_strings (p : plist) : list string :=
  Label p :: (ProgramArguments p ++ [StandardErrorPath p; StandardOutPath p])%list.

(** What the setup writes: the executor script (a fixed template), the text
    that [plistlib.dump] writes for a job definition, and the beginning of
    that text, which is what is left in the file when [plistlib.dump] stops
    at a string it refuses. *)
Inductive content :=
| ExecutorTemplate
| PlistData (p : plist)
| PlistCut (p : plist).

Inductive node :=
| Dir
| File (c : content) (executable : bool).

Abbreviation filesystem := (gmap path node).

Inductive os_error := ENOENT | ENOTDIR | EEXIST | EISDIR.

Module FS.

(** [os.path.exists]; the root directory always exists. *)
Definition exists_ (fs : filesystem) (p : path) : bool :=
  match p with
  | [] => true
  | _ => match fs !! p with Some _ => true | None => false end
  end.

(** [os.path.isdir] *)
Definition isdir (fs : filesystem) (p : path) : bool :=
  match p with
  | [] => true
  | _ => match fs !! p with Some Dir => true | _ => false end
  end.

(** How the system resolves the components [parts] of a path to a
    directory, starting in directory [cur]: one component at a time, each
    name looked up in the directory reached so far. A name that is missing,
    or that is a regular file, stops the walk, also when [..] follows it. *)
Fixpoint resolve_dir (fs : filesystem) (cur : path) (parts : list string)
  : os_error + path :=
  match parts with
  | [] => inr cur
  | c :: rest =>
      if decide (c = "" ∨ c = ".") then resolve_dir fs cur rest
      else if decide (c = "..") then resolve_dir fs (removelast cur) rest
      else match fs !! (cur ++ [c]) with
           | Some Dir => resolve_dir fs (cur ++ [c]) rest
           | Some (File _ _) => inl ENOTDIR
           | None => inl ENOENT
           end
  end.

End FS.

(* ===================================================================== *)
(** * [find_git_repo] *)
(* ===================================================================== *)

Lemma dirname_shorter (current : path) :
  current ≠ Path.dirname current →
  (length (Path.dirname current) < length current)%nat.
Proof.
  unfold Path.dirname. destruct current as [|c rest] using rev_ind.
  - intros H. by destruct H.
  - intros _. rewrite removelast_last, length_app. simpl. lia.
Qed.

(** The [while] loop of [find_git_repo], started at [current]. *)
Equations? find_git_repo_from (fs : filesystem) (current : path) : option path
  by wf (length current) lt :=
  find_git_repo_from fs current with decide (current = Path.dirname current) => {
    | left _ => None
    | right _ =>
        if FS.exists_ fs (Path.join current ".git") then Some current
        else find_git_repo_from fs (Path.dirname current) }.
Proof. by apply dirname_shorter. Qed.

Definition find_git_repo (fs : filesystem) (cwd : path) (p : string) : option path :=
  find_git_repo_from fs (Path.abspath cwd p).

(** Directory [a] holds repository metadata. *)
Definition contains_git (fs : filesystem) (a : path) : bool :=
  FS.exists_ fs (Path.join a ".git").

(** [r] is the nearest ancestor of [p] (itself included) that holds
    repository metadata, among the ancestors that satisfy [among]. *)
Definition nearest_repo (among : path → Prop) (fs : filesystem) (p r : path) : Prop :=
  among r ∧ r `prefix_of` p ∧ contains_git fs r = true ∧
  ∀ a, among a → a `prefix_of` p → contains_git fs a = true → a `prefix_of` r.

Definition below_root (a : path) : Prop := a ≠ [].

(** A filesystem whose root directory is a repository. *)
Definition fs_root_repo : filesystem := {[ [".git"] := Dir; ["work"] := Dir ]}.

(* ===================================================================== *)
(** * Dates and times ([datetime]) *)
(* ===================================================================== *)

Record date := Date { year : Z; month : Z; day : Z }.

Record datetime := DateTime {
  dt_date : date; hour : Z; minute : Z; second : Z; microsecond : Z
}.

Module Cal.

Definition is_leap (y : Z) : bool :=
  ((y mod 4 =? 0) && negb (y mod 100 =? 0)) || (y mod 400 =? 0).

Definition days_in_month (y m : Z) : Z :=
  if m =? 2 then (if is_leap y then 29 else 28)
  else if (m =? 4) || (m =? 6) || (m =? 9) || (m =? 11) then 30
  else 31.

(** The checks of the [date] constructor. *)
Definition valid_date (d : date) : bool :=
  (1 <=? year d) && (year d <=? 9999) &&
  (1 <=? month d) && (month d <=? 12) &&
  (1 <=? day d) && (day d <=? days_in_month (year d) (month d)).

(** What every [datetime] object satisfies, as far as the minute. *)
Definition valid_minute (t : datetime) : bool :=
  valid_date (dt_date t) && (0 <=? hour t) && (hour t <=? 23)
  && (0 <=? minute t) && (minute t <=? 59).

(** [a < b] on dates: lexicographic on (year, month, day). *)
Definition date_ltb (a b : date) : bool :=
  (year a <? year b) ||
  ((year a =? year b) &&
   ((month a <? month b) || ((month a =? month b) && (day a <? day b)))).

Definition date_eqb (a b : date) : bool :=
  (year a =? year b) && (month a =? month b) && (day a =? day b).

Definition time_ltb (a b : datetime) : bool :=
  (hour a <? hour b) ||
  ((hour a =? hour b) &&
   ((minute a <? minute b) ||
    ((minute a =? minute b) &&
     ((second a <? second b) ||
      ((second a =? second b) && (microsecond a <? microsecond b)))))).

(** [a < b] on datetimes. *)
Definition datetime_ltb (a b : datetime) : bool :=
  date_ltb (dt_date a) (dt_date b) ||
  (date_eqb (dt_date a) (dt_date b) && time_ltb a b).

(** [datetime.combine(d, datetime.min.time().replace(hour=h, minute=m))] *)
Definition combine (d : date) (h m : Z) : datetime := DateTime d h m 0 0.

(** The calendar day after [d] (the meaning of "tomorrow"). *)
Definition next_day (d : date) : date :=
  if day d <? days_in_month (year d) (month d) then Date (year d) (month d) (day d + 1)
  else if month d <? 12 then Date (year d) (month d + 1) 1
  else Date (year d + 1) 1 1.

Definition ymd (d : date) : string :=
  Str.pad4 (year d) +:+ "-" +:+ Str.pad2 (month d) +:+ "-" +:+ Str.pad2 (day d).

(** [t.strftime('%Y-%m-%d %H:%M:%S')], also [str(t)] when the microsecond
    is zero. *)
Definition strftime_seconds (t : datetime) : string :=
  ymd (dt_date t) +:+ " " +:+ Str.pad2 (hour t) +:+ ":" +:+ Str.pad2 (minute t)
  +:+ ":" +:+ Str.pad2 (second t).

(** [t.strftime('%Y-%m-%d %H:%M')] *)
Definition strftime_minutes (t : datetime) : string :=
  ymd (dt_date t) +:+ " " +:+ Str.pad2 (hour t) +:+ ":" +:+ Str.pad2 (minute t).

(** [t.strftime('%Y%m%d%H%M')] *)
Definition strftime_label (t : datetime) : string :=
  Str.pad4 (year (dt_date t)) +:+ Str.pad2 (month (dt_date t)) +:+
  Str.pad2 (day (dt_date t)) +:+ Str.pad2 (hour t) +:+ Str.pad2 (minute t).

(** [t.strftime('%Y%m%d_%H%M')] *)
Definition strftime_log (t : datetime) : string :=
  Str.pad4 (year (dt_date t)) +:+ Str.pad2 (month (dt_date t)) +:+
  Str.pad2 (day (dt_date t)) +:+ "_" +:+ Str.pad2 (hour t) +:+ Str.pad2 (minute t).

End Cal.

(* ===================================================================== *)
(** * Parsing user input *)
(* ===================================================================== *)

Module Parse.

(** The digits of [int(s)]: single underscores are allowed between digits.
    Returns the value and the number of digits. *)
Fixpoint scan_digits (s : string) (after_underscore : bool) (acc : Z) (n : nat)
  : option (Z * nat) :=
  match s with
  | EmptyString => if after_underscore then None else Some (acc, n)
  | String c rest =>
      if Str.is_digit c then scan_digits rest false (10 * acc + Str.digit_val c) (S n)
      else if Ascii.eqb c "_" then
        (if after_underscore then None else scan_digits rest true acc n)
      else None
  end.

Definition unsigned_int (body : string) : option Z :=
  match body with
  | EmptyString => None
  | String c _ =>
      if Ascii.eqb c "_" then None
      else match scan_digits body false 0 0 with
           | Some (v, n) => if (4300 <? n)%nat then None else Some v
           | None => None
           end
  end.

(** [int(s)] for a string: [None] stands for [ValueError]. White space
    around the number (that of C's [isspace]), a sign and underscores
    between digits are accepted; more than 4300 digits are refused (the
    interpreter's default limit). *)
Definition python_int (s : string) : option Z :=
  match Str.strip_of Str.is_c_space s with
  | String c body =>
      if Ascii.eqb c "+" then unsigned_int body
      else if Ascii.eqb c "-" then Z.opp <$> unsigned_int body
      else unsigned_int (String c body)
  | EmptyString => None
  end.

Definition digit_in (lo hi : nat) (c : ascii) : bool :=
  ((lo + 48 <=? nat_of_ascii c) && (nat_of_ascii c <=? hi + 48))%nat.

(** [\d\d\d\d] *)
Definition year_field (s : string) : option (Z * string) :=
  match s with
  | String a (String b (String c (String d rest))) =>
      if Str.is_digit a && Str.is_digit b && Str.is_digit c && Str.is_digit d
      then Some (1000 * Str.digit_val a + 100 * Str.digit_val b
                 + 10 * Str.digit_val c + Str.digit_val d, rest)
      else None
  | _ => None
  end.

(** The ways [1[0-2]|0[1-9]|[1-9]] matches a prefix of [s], in the order the
    regular expression tries them. *)
Definition month_field (s : string) : list (Z * string) :=
  match s with
  | String a rest =>
      (match rest with
       | String b rest' =>
           (if Ascii.eqb a "1" && digit_in 0 2 b then [(10 + Str.digit_val b, rest')] else [])
           ++ (if Ascii.eqb a "0" && digit_in 1 9 b then [(Str.digit_val b, rest')] else [])
       | EmptyString => []
       end)
      ++ (if digit_in 1 9 a then [(Str.digit_val a, rest)] else [])
  | EmptyString => []
  end.

(** The ways [3[0-1]|[1-2]\d|0[1-9]|[1-9]| [1-9]] matches a prefix of [s]. *)
Definition day_field (s : string) : list (Z * string) :=
  match s with
  | String a rest =>
      (match rest with
       | String b rest' =>
           (if Ascii.eqb a "3" && digit_in 0 1 b then [(30 + Str.digit_val b, rest')] else [])
           ++ (if digit_in 1 2 a && Str.is_digit b
               then [(10 * Str.digit_val a + Str.digit_val b, rest')] else [])
           ++ (if Ascii.eqb a "0" && digit_in 1 9 b then [(Str.digit_val b, rest')] else [])
       | EmptyString => []
       end)
      ++ (if digit_in 1 9 a then [(Str.digit_val a, rest)] else [])
      ++ (match rest with
          | String b rest' =>
              if Ascii.eqb a " " && digit_in 1 9 b then [(Str.digit_val b, rest')] else []
          | EmptyString => []
          end)
  | EmptyString => []
  end.

(** The first month alternative after which ["-"] and a day match. *)
Fixpoint first_match (months : list (Z * string)) : option (Z * Z * string) :=
  match months with
  | [] => None
  | (m, String "-" rest) :: others =>
      match day_field rest with
      | (d, rest') :: _ => Some (m, d, rest')
      | [] => first_match others
      end
  | _ :: others => first_match others
  end.

(** [datetime.strptime(s, "%Y-%m-%d").date()]: [None] stands for
    [ValueError] (no match, unconverted data, or no such day). *)
Definition strptime_ymd (s : string) : option date :=
  match year_field s with
  | Some (y, String "-" rest) =>
      match first_match (month_field rest) with
      | Some (m, d, EmptyString) =>
          if Cal.valid_date (Date y m d) then Some (Date y m d) else None
      | _ => None
      end
  | _ => None
  end.

End Parse.

(* ===================================================================== *)
(** * Exceptions, results and the process state *)
(* ===================================================================== *)

Inductive exn :=
| CalledProcessError (cmd : list string) (returncode : Z)
| OSError (kind : os_error) (filename : string)
| SpawnError (msg : string)
| ValueError (msg : string)
| EOFError
| SystemExit (code : Z).

(** [isinstance(e, Exception)]: [SystemExit] derives from [BaseException]
    only. *)
Definition is_Exception (e : exn) : bool :=
  match e with SystemExit _ => false | _ => true end.

Definition repr_str (s : string) : string := Str.repr s.

Fixpoint join_comma (l : list string) : string :=
  match l with
  | [] => ""
  | [c] => c
  | c :: rest => c +:+ ", " +:+ join_comma rest
  end.

Definition strerror (k : os_error) : string :=
  match k with
  | ENOENT => "[Errno 2] No such file or directory: "
  | ENOTDIR => "[Errno 20] Not a directory: "
  | EEXIST => "[Errno 17] File exists: "
  | EISDIR => "[Errno 21] Is a directory: "
  end.

(** [str(e)], where [signals] names the signals of the platform
    ([signal.Signals]): a negative return code is the number of the signal
    that ended the child. *)
Definition str_exn (signals : Z → option string) (e : exn) : string :=
  match e with
  | CalledProcessError cmd rc =>
      "Command '[" +:+ join_comma (map repr_str cmd) +:+ "]' " +:+
      (if rc <? 0 then
         match signals (- rc) with
         | Some name => "died with <Signals." +:+ name +:+ ": " +:+ pretty (- rc) +:+ ">."
         | None => "died with unknown signal " +:+ pretty (- rc) +:+ "."
         end
       else "returned non-zero exit status " +:+ pretty rc +:+ ".")
  | OSError k f => strerror k +:+ repr_str f
  | SpawnError msg => msg
  | ValueError msg => msg
  | EOFError => "EOF when reading a line"
  | SystemExit c => pretty c
  end.

Inductive result (A : Type) :=
| Returned (a : A)
| Raised (e : exn).
Arguments Returned {A} a.
Arguments Raised {A} e.

Definition is_returned {A : Type} (r : result A) : bool :=
  match r with Returned _ => true | Raised _ => false end.

Definition returned_or {A : Type} (d : A) (r : result A) : A :=
  match r with Returned a => a | Raised _ => d end.

(** What [subprocess] does with a command: the child ran to completion, or
    [subprocess] raised because the child could not be started or its
    output not be read (an [OSError], a [ValueError] or a
    [UnicodeDecodeError] in Python, with the text [msg]). *)
Record completed := Completed { returncode : Z; out : string; err : string }.

Inductive outcome :=
| Ran (c : completed)
| NotStarted (msg : string).

(** The state of one Python process and of the machine around it. [E] is
    the state of the external tools (the git repositories, the scheduler's
    job table). *)
Record State (E : Type) := mkState {
  cwd : path;                      (* working directory of the process *)
  stdin : list string;             (* lines still to be read *)
  stdout : list string;            (* lines and prompts printed *)
  stderr : list string;
  spawned : list (list string);    (* commands handed to [subprocess] *)
  ticks : nat;                     (* clock readings taken so far *)
  clock : nat → datetime;          (* the n-th reading of the clock *)
  signals : Z → option string;     (* the names of the platform's signals *)
  home : path;
  fs : filesystem;
  ext : E
}.
Arguments mkState {E}.
Arguments cwd {E} s.
Arguments stdin {E} s.
Arguments stdout {E} s.
Arguments stderr {E} s.
Arguments spawned {E} s.
Arguments ticks {E} s.
Arguments clock {E} s.
Arguments signals {E} s.
Arguments home {E} s.
Arguments fs {E} s.
Arguments ext {E} s.

Definition set_cwd {E : Type} (c : path) (s : State E) : State E :=
  mkState c (stdin s) (stdout s) (stderr s) (spawned s) (ticks s) (clock s)
          (signals s) (home s) (fs s) (ext s).

Definition set_stdin {E : Type} (l : list string) (s : State E) : State E :=
  mkState (cwd s) l (stdout s) (stderr s) (spawned s) (ticks s) (clock s)
          (signals s) (home s) (fs s) (ext s).

Definition put_stdout {E : Type} (line : string) (s : State E) : State E :=
  mkState (cwd s) (stdin s) (stdout s ++ [line]) (stderr s) (spawned s) (ticks s)
          (clock s) (signals s) (home s) (fs s) (ext s).

Definition put_stderr {E : Type} (line : string) (s : State E) : State E :=
  mkState (cwd s) (stdin s) (stdout s) (stderr s ++ [line]) (spawned s) (ticks s)
          (clock s) (signals s) (home s) (fs s) (ext s).

Definition tick {E : Type} (s : State E) : State E :=
  mkState (cwd s) (stdin s) (stdout s) (stderr s) (spawned s) (S (ticks s))
          (clock s) (signals s) (home s) (fs s) (ext s).

Definition set_fs {E : Type} (f : filesystem) (s : State E) : State E :=
  mkState (cwd s) (stdin s) (stdout s) (stderr s) (spawned s) (ticks s) (clock s)
          (signals s) (home s) f (ext s).

(** The state after a child process ran [cmd] and left the machine in [w]. *)
Definition after_child {E : Type} (cmd : list string) (w : filesystem * E) (s : State E)
  : State E :=
  mkState (cwd s) (stdin s) (stdout s) (stderr s) (spawned s ++ [cmd]) (ticks s)
          (clock s) (signals s) (home s) (fst w) (snd w).

(** Computations of the interpreter: they return or raise, and change the
    state either way. *)
Definition M (E A : Type) : Type := State E → result A * State E.

Definition ret {E A : Type} (a : A) : M E A := fun s => (Returned a, s).

Definition raise {E A : Type} (e : exn) : M E A := fun s => (Raised e, s).

Definition bind {E A B : Type} (m : M E A) (k : A → M E B) : M E B :=
  fun s =>
    match m s with
    | (Returned a, s') => k a s'
    | (Raised e, s') => (Raised e, s')
    end.

Notation "x <- m ;; k" := (bind m (fun x => k))
  (at level 100, m at next level, right associativity).
Notation "m ;; k" := (bind m (fun _ => k))
  (at level 100, right associativity).

(** [try: body except ...: handler]; [handler e = None] when no clause
    matches [e]. *)
Definition try_except {E A : Type} (body : M E A) (handler : exn → option (M E A)) : M E A :=
  fun s =>
    match body s with
    | (Returned a, s') => (Returned a, s')
    | (Raised e, s') =>
        match handler e with
        | Some h => h s'
        | None => (Raised e, s')
        end
    end.

(** [print(line)] and [print(line, file=sys.stderr)] *)
Definition print {E : Type} (line : string) : M E unit :=
  fun s => (Returned tt, put_stdout line s).

Definition print_err {E : Type} (line : string) : M E unit :=
  fun s => (Returned tt, put_stderr line s).

Definition get {E : Type} : M E (State E) := fun s => (Returned s, s).

(** [datetime.now()] *)
Definition datetime_now {E : Type} : M E datetime :=
  fun s => (Returned (clock s (ticks s)), tick s).

(** [str(e)] in the process. *)
Definition str_of {E : Type} (e : exn) : M E string :=
  fun s => (Returned (str_exn (signals s) e), s).

(** The directory that [os.chdir(p)] enters from the working directory
    [cwd], or the exception it raises: the system resolves [p] itself, so
    every directory named on the way has to exist, also one that [..]
    leaves again. *)
Definition chdir_target (f : filesystem) (cwd : path) (p : string) : result path :=
  if Str.has_nul p then Raised (ValueError "embedded null byte")
  else if decide (p = "") then Raised (OSError ENOENT p)
  else match FS.resolve_dir f (if Path.is_absolute p then [] else cwd)
                            (Str.split_on "/" p) with
       | inr target => Returned target
       | inl k => Raised (OSError k p)
       end.

(** [os.chdir(p)] *)
Definition os_chdir {E : Type} (p : string) : M E unit :=
  fun s =>
    match chdir_target (fs s) (cwd s) p with
    | Returned target => (Returned tt, set_cwd target s)
    | Raised e => (Raised e, s)
    end.

(** A [while True:] loop that reads one line per round: [body] answers
    [None] to [continue] and [Some a] to [break] with [a]. At the end of the
    input, [input()] raises [EOFError]. *)
Fixpoint prompt_loop {E A : Type} (prompt : string) (body : string → M E (option A))
    (lines : list string) : M E A :=
  fun s =>
    match lines with
    | [] => (Raised EOFError, put_stdout prompt (set_stdin [] s))
    | line :: rest =>
        match body line (put_stdout prompt (set_stdin rest s)) with
        | (Returned (Some a), s') => (Returned a, s')
        | (Returned None, s') => prompt_loop prompt body rest s'
        | (Raised e, s') => (Raised e, s')
        end
    end.

Definition while_input {E A : Type} (prompt : string) (body : string → M E (option A))
  : M E A :=
  fun s => prompt_loop prompt body (stdin s) s.

(** [os.makedirs(p, exist_ok=True)], walking down from [done]: the
    directories that are missing are made from the top, and stay when a
    later step raises. [mkdir] refuses a name with a NUL character before it
    looks at the disk; below a regular file it fails with the name it was
    asked to make. *)
Fixpoint makedirs_go (f : filesystem) (done : path) (todo : list string)
  : result unit * filesystem :=
  match todo with
  | [] => (Returned tt, f)
  | c :: todo' =>
      let q := (done ++ [c])%list in
      if Str.has_nul c then (Raised (ValueError "embedded null byte"), f)
      else
        match f !! q with
        | Some Dir => makedirs_go f q todo'
        | Some (File _ _) =>
            match todo' with
            | [] => (Raised (OSError EEXIST (Path.str q)), f)
            | c' :: _ =>
                if Str.has_nul c' then (Raised (ValueError "embedded null byte"), f)
                else (Raised (OSError ENOTDIR (Path.str (q ++ [c']))), f)
            end
        | None => makedirs_go (<[q := Dir]> f) q todo'
        end
  end.

Definition os_makedirs {E : Type} (p : path) : M E unit :=
  fun s =>
    let (r, f) := makedirs_go (fs s) [] p in (r, set_fs f s).

(** [with open(p, mode) as f: f.write(c)]: creates or truncates the file. *)
Definition write_file {E : Type} (p : path) (c : content) : M E unit :=
  fun s =>
    if Str.has_nul (Path.str p) then (Raised (ValueError "embedded null byte"), s)
    else if negb (FS.isdir (fs s) (Path.dirname p)) then
      (Raised (OSError (if FS.exists_ (fs s) (Path.dirname p) then ENOTDIR else ENOENT)
                       (Path.str p)), s)
    else
      match fs s !! p with
      | Some Dir => (Raised (OSError EISDIR (Path.str p)), s)
      | Some (File _ x) => (Returned tt, set_fs (<[p := File c x]> (fs s)) s)
      | None =>
          match p with
          | [] => (Raised (OSError EISDIR (Path.str p)), s)
          | _ => (Returned tt, set_fs (<[p := File c false]> (fs s)) s)
          end
      end.

(** A job definition that the XML writer of [plistlib] accepts: none of its
    strings holds a control character. *)
Definition xml_writable (data : plist) : bool :=
  forallb (fun text => negb (existsb Str.is_control (Str.to_list text)))
          (plist_strings data).

(** [with open(p, "wb") as f: plistlib.dump(data, f)]: the file is created
    or truncated when it is opened; the writer then raises [ValueError] at
    the first string with a control character, leaving what it wrote so
    far. *)
Definition plistlib_dump {E : Type} (p : path) (data : plist) : M E unit :=
  if xml_writable data then write_file p (PlistData data)
  else
    write_file p (PlistCut data) ;;
    raise (ValueError "strings can't contain control characters; use bytes instead").

(** [os.chmod(p, 0o755)] *)
Definition os_chmod_755 {E : Type} (p : path) : M E unit :=
  fun s =>
    match fs s !! p with
    | Some (File c _) => (Returned tt, set_fs (<[p := File c true]> (fs s)) s)
    | Some Dir => (Returned tt, s)
    | None => (Raised (OSError ENOENT (Path.str p)), s)
    end.

Section Program.

Context {E : Type}.

(** How a command, run by a child process in directory [cwd], answers and
    changes the filesystem and the tools' state. The scripts use git, which
    and launchctl. *)
Variable exec : list string → path → filesystem * E → outcome * (filesystem * E).

(** [subprocess.run(cmd, check=check, capture_output=True)] *)
Definition subprocess_run (cmd : list string) (check : bool) : M E completed :=
  fun s =>
    match exec cmd (cwd s) (fs s, ext s) with
    | (Ran c, w) =>
        if check && negb (returncode c =? 0)
        then (Raised (CalledProcessError cmd (returncode c)), after_child cmd w s)
        else (Returned c, after_child cmd w s)
    | (NotStarted msg, w) => (Raised (SpawnError msg), after_child cmd w s)
    end.

(** [subprocess.check_output(cmd, text=True)] *)
Definition subprocess_check_output (cmd : list string) : M E string :=
  c <- subprocess_run cmd true ;; ret (out c).

(* ------------------------------------------------------------------- *)
(** ** [commit_folder] *)

Definition commit_folder (folder_path repo_path : string) : M E bool :=
  os_chdir repo_path ;;
  s <- get ;;
  let folder_name := Path.basename (Path.abspath (cwd s) folder_path) in
  let relative_path :=
    Path.relpath (Path.abspath (cwd s) folder_path) (Path.abspath (cwd s) repo_path) in
  try_except
    (subprocess_run ["git"; "status"] true ;;
     result <- subprocess_run ["git"; "add"; relative_path +:+ "/"] false ;;
     if negb (returncode result =? 0) then
       print_err ("Error adding files: " +:+ err result) ;;
       ret false
     else
       result <- subprocess_run ["git"; "diff"; "--cached"; "--quiet"] false ;;
       if returncode result =? 0 then
         print "No changes to commit." ;;
         ret true
       else
         now <- datetime_now ;;
         let commit_message :=
           "Auto-commit " +:+ folder_name +:+ " - " +:+ Cal.strftime_seconds now in
         result <- subprocess_run ["git"; "commit"; "-m"; commit_message] false ;;
         if negb (returncode result =? 0) then
           print_err ("Error committing: " +:+ err result) ;;
           ret false
         else
           print ("Successfully committed " +:+ folder_name +:+ "!") ;;
           ret true)
    (fun e =>
       match e with
       | CalledProcessError _ _ =>
           Some (text <- str_of e ;; print_err ("Git error: " +:+ text) ;; ret false)
       | _ =>
           if is_Exception e
           then Some (text <- str_of e ;; print_err ("Error: " +:+ text) ;; ret false)
           else None
       end).

(* ------------------------------------------------------------------- *)
(** ** The executor script, [git_commit_executor.py] *)

(** The body under [if __name__ == "__main__":], given [sys.argv]. *)
Definition executor_main (argv : list string) : M E unit :=
  if negb (length argv =? 3)%nat then
    print "Usage: git_commit_executor.py <folder_path> <repo_path>" ;;
    raise (SystemExit 1)
  else
    let folder_path := nth 1 argv "" in
    let repo_path := nth 2 argv "" in
    commit_folder folder_path repo_path ;;
    ret tt.

(** The exit status of the interpreter: 0 at the end of the script, the
    code of [sys.exit], and 1 with a traceback for an uncaught exception. *)
Definition run_script (script : M E unit) (s : State E) : Z * State E :=
  match script s with
  | (Returned _, s') => (0, s')
  | (Raised (SystemExit code), s') => (code, s')
  | (Raised e, s') =>
      (1, put_stderr ("Traceback (most recent call last): "
                      +:+ str_exn (signals s') e) s')
  end.

(* ------------------------------------------------------------------- *)
(** ** [get_user_input] *)

(** One round of the folder prompt. *)
Definition folder_step (line : string) : M E (option (path * path)) :=
  let folder_input := Str.strip line in
  if decide (folder_input = "") then
    print "Please enter a valid folder path." ;;
    ret None
  else
    s <- get ;;
    let folder_path := Path.abspath (cwd s) (Path.expanduser (home s) folder_input) in
    if negb (FS.exists_ (fs s) folder_path) then
      print ("Error: Path '" +:+ Path.str folder_path +:+ "' does not exist.") ;;
      ret None
    else if negb (FS.isdir (fs s) folder_path) then
      print ("Error: '" +:+ Path.str folder_path +:+ "' is not a directory.") ;;
      ret None
    else
      match find_git_repo (fs s) (cwd s) (Path.str folder_path) with
      | None =>
          print ("Error: No git repository found containing '"
                 +:+ Path.str folder_path +:+ "'") ;;
          print "Please make sure the folder is inside a git repository." ;;
          ret None
      | Some repo_path =>
          print ("✓ Found git repository at: " +:+ Path.str repo_path) ;;
          ret (Some (folder_path, repo_path))
      end.

(** One round of the date prompt. *)
Definition date_step (line : string) : M E (option date) :=
  let date_input := Str.strip line in
  parsed <- (if decide (date_input = "") then
               now <- datetime_now ;;
               ret (Some (dt_date now))
             else
               match Parse.strptime_ymd date_input with
               | Some d => ret (Some d)
               | None =>
                   print "Invalid date format. Please use YYYY-MM-DD (e.g., 2024-12-04)" ;;
                   ret None
               end) ;;
  match parsed with
  | None => ret None
  | Some target_date =>
      now <- datetime_now ;;
      if Cal.date_ltb target_date (dt_date now) then
        print "Date must be today or in the future." ;;
        ret None
      else ret (Some target_date)
  end.

(** [hour, minute = map(int, time_input.split(":"))] and the range check:
    [None] stands for the [ValueError] of any of the three. *)
Definition parse_time (time_input : string) : option (Z * Z) :=
  match map Parse.python_int (Str.split_on ":" time_input) with
  | [Some hour; Some minute] =>
      if negb ((0 <=? hour) && (hour <=? 23) && (0 <=? minute) && (minute <=? 59))
      then None
      else Some (hour, minute)
  | _ => None
  end.

(** The shape the prompt asks for: two digits, a colon, two digits. The
    answer is the pair of numbers written. *)
Definition strict_HH_MM (time_input : string) : option (Z * Z) :=
  match time_input with
  | String a (String b (String sep (String c (String d EmptyString)))) =>
      if Str.is_digit a && Str.is_digit b && Ascii.eqb sep ":"
         && Str.is_digit c && Str.is_digit d
      then Some (10 * Str.digit_val a + Str.digit_val b,
                 10 * Str.digit_val c + Str.digit_val d)
      else None
  | _ => None
  end.

Definition in_range (hm : Z * Z) : bool :=
  (0 <=? fst hm) && (fst hm <=? 23) && (0 <=? snd hm) && (snd hm <=? 59).

(** One round of the time prompt. *)
Definition time_step (line : string) : M E (option (Z * Z)) :=
  let time_input := Str.strip line in
  match parse_time time_input with
  | Some hm => ret (Some hm)
  | None =>
      print "Invalid time format. Please use HH:MM (e.g., 04:00)" ;;
      ret None
  end.

(** [t.replace(day=d)] *)
Definition replace_day (t : datetime) (d : Z) : M E datetime :=
  let t' := DateTime (Date (year (dt_date t)) (month (dt_date t)) d)
                     (hour t) (minute t) (second t) (microsecond t) in
  if Cal.valid_date (dt_date t') then ret t'
  else raise (ValueError "day is out of range for month").

(** The lines after the three prompts: combine, and move a past time to
    the next day. *)
Definition combine_target (target_date : date) (hour minute : Z) : M E datetime :=
  let target_datetime := Cal.combine target_date hour minute in
  now <- datetime_now ;;
  if Cal.datetime_ltb target_datetime now then
    print ("Warning: " +:+ Cal.strftime_seconds target_datetime
           +:+ " is in the past. Using tomorrow instead.") ;;
    replace_day target_datetime (day (dt_date target_datetime) + 1)
  else ret target_datetime.

Definition past_warning (d : date) (h m : Z) : string :=
  "Warning: " +:+ Cal.strftime_seconds (Cal.combine d h m)
  +:+ " is in the past. Using tomorrow instead.".

Definition folder_prompt : string := "Enter the folder path to commit: ".
Definition date_prompt : string :=
  Str.nl +:+ "Enter date (YYYY-MM-DD) or press Enter for today: ".
Definition time_prompt : string :=
  "Enter time (HH:MM) in 24-hour format (e.g., 04:00): ".

Definition rule : string := Str.concat (replicate 60 "=").

Definition get_user_input : M E (path * path * datetime) :=
  print rule ;;
  print "Git Commit Scheduler" ;;
  print rule ;;
  print "" ;;
  folder <- while_input folder_prompt folder_step ;;
  target_date <- while_input date_prompt date_step ;;
  hm <- while_input time_prompt time_step ;;
  target_datetime <- combine_target target_date (fst hm) (snd hm) ;;
  ret (fst folder, snd folder, target_datetime).

(* ------------------------------------------------------------------- *)
(** ** [create_launchd_plist] *)

(** Two timestamps in the same minute. *)
Definition same_minute (a b : datetime) : bool :=
  (year (dt_date a) =? year (dt_date b)) && (month (dt_date a) =? month (dt_date b))
  && (day (dt_date a) =? day (dt_date b)) && (hour a =? hour b) && (minute a =? minute b).

(** The name under which a folder is known in labels. *)
Definition normalize_name (folder_name : string) : string :=
  Str.remove_char "-" (Str.remove_char " " (Str.lower folder_name)).

(** The normalisation in the words of the specification: every character
    of the name is lower-cased, and spaces and hyphens are removed. *)
Fixpoint spec_normalized_name (name : string) : string :=
  match name with
  | EmptyString => EmptyString
  | String a rest =>
      if Ascii.eqb a " " || Ascii.eqb a "-" then spec_normalized_name rest
      else String (Str.lower_char a) (spec_normalized_name rest)
  end.

(** The label of the job, as the process working in [cwd] derives it. *)
Definition job_label (cwd : path) (folder_path : string) (target_datetime : datetime)
  : string :=
  let folder_name := Path.basename (Path.abspath cwd folder_path) in
  "com.gitcommit." +:+ normalize_name folder_name +:+ "."
  +:+ Cal.strftime_label target_datetime.

Definition launchd_dir (s : State E) : path :=
  Path.abspath (cwd s) (Path.expanduser (home s) "~/Library/LaunchAgents").

Definition plist_data (cwd : path) (python3_path : string)
    (folder_path repo_path : string) (target_datetime : datetime)
    (script_path : string) : plist :=
  let folder_name := Path.basename (Path.abspath cwd folder_path) in
  let script_path := Path.abspath cwd script_path in
  let logs_dir := Path.join (Path.dirname script_path) "logs" in
  let stamp := Cal.strftime_log target_datetime in
  {| Label := job_label cwd folder_path target_datetime;
     ProgramArguments :=
       [python3_path; Path.str script_path;
        Path.str (Path.abspath cwd folder_path);
        Path.str (Path.abspath cwd repo_path)];
     StartCalendarInterval :=
       {| ci_month := month (dt_date target_datetime);
          ci_day := day (dt_date target_datetime);
          ci_hour := hour target_datetime;
          ci_minute := minute target_datetime |};
     StandardOutPath :=
       Path.str (Path.join logs_dir ("commit_" +:+ folder_name +:+ "_" +:+ stamp +:+ ".log"));
     StandardErrorPath :=
       Path.str (Path.join logs_dir
                   ("commit_" +:+ folder_name +:+ "_" +:+ stamp +:+ "_error.log"));
     RunAtLoad := false |}.

(** The [try] around [which python3]. *)
Definition find_python3 : M E string :=
  try_except
    (o <- subprocess_check_output ["which"; "python3"] ;; ret (Str.strip o))
    (fun e =>
       match e with
       | CalledProcessError _ _ => Some (ret "/usr/bin/python3")
       | _ => None
       end).

Definition create_launchd_plist (folder_path repo_path : string)
    (target_datetime : datetime) (script_path : string) : M E (path * string) :=
  s <- get ;;
  let label := job_label (cwd s) folder_path target_datetime in
  python3_path <- find_python3 ;;
  let logs_dir := Path.join (Path.dirname (Path.abspath (cwd s) script_path)) "logs" in
  os_makedirs logs_dir ;;
  let data :=
    plist_data (cwd s) python3_path folder_path repo_path target_datetime script_path in
  os_makedirs (launchd_dir s) ;;
  let plist_path := Path.join (launchd_dir s) (label +:+ ".plist") in
  plistlib_dump plist_path data ;;
  ret (plist_path, label).

(* ------------------------------------------------------------------- *)
(** ** [main] of the setup script, installed as [script_file] *)

Definition load_job (plist_path : path) : M E (option bool) :=
  try_except
    (result <- subprocess_run ["launchctl"; "load"; Path.str plist_path] false ;;
     if negb (returncode result =? 0) then
       print (Str.nl +:+ "Error loading scheduler: " +:+ err result) ;;
       ret (Some false)
     else ret None)
    (fun e =>
       if is_Exception e
       then Some (text <- str_of e ;;
                  print (Str.nl +:+ "Error loading scheduler: " +:+ text) ;;
                  ret (Some false))
       else None).

Definition main (script_file : string) : M E bool :=
  input <- get_user_input ;;
  let '(folder_path, repo_path, target_datetime) := input in
  s <- get ;;
  let script_dir := Path.dirname (Path.abspath (cwd s) script_file) in
  let commit_script := Path.join script_dir "git_commit_executor.py" in
  (if negb (FS.exists_ (fs s) commit_script) then
     write_file commit_script ExecutorTemplate ;;
     os_chmod_755 commit_script
   else ret tt) ;;
  job <- create_launchd_plist (Path.str folder_path) (Path.str repo_path)
                              target_datetime (Path.str commit_script) ;;
  returned <- load_job (fst job) ;;
  match returned with
  | Some b => ret b
  | None =>
      print (Str.nl +:+ rule) ;;
      print "✓ Scheduler installed successfully!" ;;
      print rule ;;
      print ("Folder: " +:+ Path.str folder_path) ;;
      print ("Scheduled for: " +:+ Cal.strftime_minutes target_datetime) ;;
      print ("Plist: " +:+ Path.str (fst job)) ;;
      print "" ;;
      print ("To check status: launchctl list | grep " +:+ snd job) ;;
      print ("To uninstall: launchctl unload " +:+ Path.str (fst job)) ;;
      print rule ;;
      ret true
  end.

(* ------------------------------------------------------------------- *)
(** ** Runs of [commit_folder] on an unchanged folder *)

(** The folder has no pending changes: from state [s], the repository can
    be entered, [git status] and the staging succeed, and the staged diff
    is empty afterwards. *)
Definition staged_diff_empty (folder_path repo_path : string) (s : State E) : bool :=
  match os_chdir repo_path s with
  | (Returned _, s1) =>
      let relative_path :=
        Path.relpath (Path.abspath (cwd s1) folder_path)
                     (Path.abspath (cwd s1) repo_path) in
      match exec ["git"; "status"] (cwd s1) (fs s1, ext s1) with
      | (Ran c1, w1) =>
          (returncode c1 =? 0) &&
          match exec ["git"; "add"; relative_path +:+ "/"] (cwd s1) w1 with
          | (Ran c2, w2) =>
              (returncode c2 =? 0) &&
              match exec ["git"; "diff"; "--cached"; "--quiet"] (cwd s1) w2 with
              | (Ran c3, _) => returncode c3 =? 0
              | _ => false
              end
          | _ => false
          end
      | _ => false
      end
  | _ => false
  end.

(** [n] invocations in a row, in one process. *)
Fixpoint repeat_commit (n : nat) (folder_path repo_path : string) (s : State E)
  : list (result bool) * State E :=
  match n with
  | O => ([], s)
  | S k =>
      let (r, s1) := commit_folder folder_path repo_path s in
      let (rs, s2) := repeat_commit k folder_path repo_path s1 in
      (r :: rs, s2)
  end.

(** Each of [n] invocations in a row finds the folder without pending
    changes. *)
Fixpoint unchanged_for (n : nat) (folder_path repo_path : string) (s : State E) : bool :=
  match n with
  | O => true
  | S k =>
      staged_diff_empty folder_path repo_path s &&
      unchanged_for k folder_path repo_path (snd (commit_folder folder_path repo_path s))
  end.

End Program.

(** A command that creates a commit. *)
Definition is_git_commit (cmd : list string) : bool :=
  match cmd with
  | "git" :: "commit" :: _ => true
  | _ => false
  end.

(* ===================================================================== *)
(** * A small machine to run the scripts on *)
(* ===================================================================== *)

(** A single repository at [git_root]; [unstaged] and [staged] say whether
    the work tree and the index hold changes; [log] lists the messages of
    the commits made. *)
Record Tools := mkTools {
  git_root : path;
  unstaged : bool;
  staged : bool;
  log : list string
}.

Definition answer (rc : Z) (o e : string) : outcome := Ran (Completed rc o e).

Definition tools_exec (cmd : list string) (cwd : path) (w : filesystem * Tools)
  : outcome * (filesystem * Tools) :=
  let t := snd w in
  let inside := bool_decide (git_root t `prefix_of` cwd) in
  let not_a_repo := answer 128 "" "fatal: not a git repository" in
  match cmd with
  | ["git"; "status"] => (if inside then answer 0 "" "" else not_a_repo, w)
  | ["git"; "add"; _] =>
      if inside
      then (answer 0 "" "",
            (fst w, mkTools (git_root t) false (staged t || unstaged t) (log t)))
      else (not_a_repo, w)
  | ["git"; "diff"; "--cached"; "--quiet"] =>
      (if inside then answer (if staged t then 1 else 0) "" "" else not_a_repo, w)
  | ["git"; "commit"; "-m"; msg] =>
      if inside && staged t
      then (answer 0 "" "", (fst w, mkTools (git_root t) (unstaged t) false (log t ++ [msg])))
      else (answer 1 "" "nothing to commit", w)
  | ["which"; "python3"] => (answer 0 ("/usr/local/bin/python3" +:+ Str.nl) "", w)
  | ["launchctl"; "load"; _] => (answer 0 "" "", w)
  | _ => (NotStarted "[Errno 2] No such file or directory", w)
  end.

Definition noon (y m d : Z) : datetime := DateTime (Date y m d) 12 0 0 0.

(** Some signals of the small machine. *)
Definition signal_names (n : Z) : option string :=
  if n =? 1 then Some "SIGHUP" else if n =? 2 then Some "SIGINT"
  else if n =? 9 then Some "SIGKILL" else if n =? 15 then Some "SIGTERM"
  else None.

(** A machine with the repository [/repo], the folder [/repo/src] in it and
    a home directory, on 31 January 2025 at noon. *)
Definition machine (pending : bool) (input : list string) : State Tools :=
  {| cwd := ["home"; "me"];
     stdin := input;
     stdout := [];
     stderr := [];
     spawned := [];
     ticks := 0;
     clock := fun _ => noon 2025 1 31;
     signals := signal_names;
     home := ["home"; "me"];
     fs := {[ ["repo"] := Dir; ["repo"; ".git"] := Dir; ["repo"; "src"] := Dir;
              ["home"] := Dir; ["home"; "me"] := Dir; ["tmp"] := Dir;
              ["opt"] := Dir; ["opt"; "autocommit"] := Dir ]};
     ext := mkTools ["repo"] pending false [] |}.

(** The repository [/repo] of the small machine is there, with nothing to
    stage and nothing staged. *)
Definition settled (s : State Tools) : Prop :=
  FS.isdir (fs s) ["repo"] = true ∧ git_root (ext s) = ["repo"] ∧
  unstaged (ext s) = false ∧ staged (ext s) = false.

(** The machine after the folder [/repo/My-Src] has been registered for
    1 February 2025 at noon. *)
Abbreviation registered :=
  (snd (create_launchd_plist tools_exec "/repo/My-Src" "/repo" (noon 2025 2 1)
          "/opt/autocommit/git_commit_executor.py" (machine true []))).

(* ===================================================================== *)
(** * Further notions used in the statements *)
(* ===================================================================== *)

(** The commands of one run of [commit_folder], in the order of the source,
    for the staged path [rel] and the commit message [msg]. *)
Definition commit_commands (rel msg : string) : list (list string) :=
  [["git"; "status"]; ["git"; "add"; rel]; ["git"; "diff"; "--cached"; "--quiet"];
   ["git"; "commit"; "-m"; msg]].

(** Tools that answer from a table and change nothing. *)
Definition scripted (answers : list string → outcome)
  : list string → path → filesystem * Tools → outcome * (filesystem * Tools) :=
  fun cmd _ w => (answers cmd, w).

(** git that fails to stage, and git whose commit is refused. *)
Definition add_fails (cmd : list string) : outcome :=
  match cmd with
  | ["git"; "status"] => answer 0 "" ""
  | ["git"; "add"; _] => answer 128 "" "fatal: pathspec did not match any files"
  | _ => answer 1 "" ""
  end.

Definition commit_fails (cmd : list string) : outcome :=
  match cmd with
  | ["git"; "status"] => answer 0 "" ""
  | ["git"; "add"; _] => answer 0 "" ""
  | ["git"; "diff"; "--cached"; "--quiet"] => answer 1 "" ""
  | _ => answer 1 "" "Author identity unknown"
  end.

(** A machine without git. *)
Definition no_git (cmd : list string) : outcome :=
  NotStarted "[Errno 2] No such file or directory: 'git'".

(** A machine where [which] finds nothing, and one where every command
    succeeds silently. *)
Definition which_fails (cmd : list string) : outcome :=
  match cmd with
  | ["which"; "python3"] => answer 1 "" ""
  | _ => answer 0 "" ""
  end.

Definition all_succeed (cmd : list string) : outcome := answer 0 "" "".

(** The answers to the prompts used in the examples. *)
Definition typed_answers : list string := ["/repo/src"; "2025-02-01"; "9:00"].

(** A component of a normalised path: not empty, not [.] or [..], and
    without a slash. *)
Definition clean_component (c : string) : bool :=
  negb (String.eqb c "") && negb (String.eqb c ".") && negb (String.eqb c "..")
  && forallb (fun a => negb (Ascii.eqb a "/")) (Str.to_list c).

(** A normalised path, as [os.getcwd] and [os.path.abspath] give them. *)
Definition clean_path (p : path) : bool := forallb clean_component p.

(** [s'] differs from [s] at most in what was read, printed and timed. *)
Definition only_talked {E : Type} (s s' : State E) : Prop :=
  cwd s' = cwd s ∧ fs s' = fs s ∧ ext s' = ext s ∧ home s' = home s ∧
  spawned s' = spawned s ∧ stderr s' = stderr s ∧ clock s' = clock s.

(** What the folder prompt lets through: started in a normalised working
    directory, an existing directory and the nearest directory above it,
    itself included and the root excluded, that holds [.git]. *)
Definition folder_ok {E : Type} (s : State E) (fr : path * path) : Prop :=
  clean_path (cwd s) = true →
  FS.isdir (fs s) (fst fr) = true ∧ nearest_repo below_root (fs s) (fst fr) (snd fr).

(** The state [s] with the clock stopped at [t]. *)
Definition at_time {E : Type} (t : datetime) (s : State E) : State E :=
  mkState (cwd s) (stdin s) (stdout s) (stderr s) (spawned s) (ticks s) (fun _ => t)
          (signals s) (home s) (fs s) (ext s).

(* ===================================================================== *)
(** * The repository resolver *)
(* ===================================================================== *)

Lemma find_from_root (fs : filesystem) : find_git_repo_from fs [] = None.
Proof. reflexivity. Qed.

Lemma find_from_snoc (fs : filesystem) (q : path) (c : string) :
  find_git_repo_from fs (q ++ [c]) =
  if contains_git fs (q ++ [c]) then Some (q ++ [c]) else find_git_repo_from fs q.
Proof.
  rewrite (find_git_repo_from_equation_1 fs (q ++ [c])).
  destruct (decide (q ++ [c] = Path.dirname (q ++ [c]))) as [Heq|Hne]; simpl.
  - exfalso. unfold Path.dirname in Heq. rewrite removelast_last in Heq.
    apply (f_equal length) in Heq. rewrite length_app in Heq. simpl in Heq. lia.
  - unfold Path.dirname, contains_git. by rewrite removelast_last.
Qed.

Lemma prefix_snoc_cases (a q : path) (c : string) :
  a `prefix_of` q ++ [c] → a = q ++ [c] ∨ a `prefix_of` q.
Proof.
  intros [k Hk]. destruct k as [|x k' _] using rev_ind.
  - left. by rewrite app_nil_r in Hk.
  - right. rewrite app_assoc in Hk. apply app_inj_tail in Hk as [-> _].
    by exists k'.
Qed.

Lemma find_from_some (fs : filesystem) (p r : path) :
  find_git_repo_from fs p = Some r ↔ nearest_repo below_root fs p r.
Proof.
  unfold nearest_repo, below_root. revert r.
  induction p as [|c q IH] using rev_ind; intros r.
  - rewrite find_from_root. split; [done|].
    intros (Hr & Hp & _). apply prefix_nil_inv in Hp. done.
  - rewrite find_from_snoc. destruct (contains_git fs (q ++ [c])) eqn:Hgit.
    + split.
      * intros [= <-]. repeat split; try done. by destruct q.
      * intros (Hr & Hp & Hg & Hnear). f_equal.
        apply (anti_symm prefix); [|done].
        apply Hnear; try done. by destruct q.
    + rewrite IH. split.
      * intros (Hr & Hp & Hg & Hnear). repeat split; try done.
        { by apply prefix_app_r. }
        intros a Ha Hap Hag. apply prefix_snoc_cases in Hap as [->|Hap].
        { congruence. }
        by apply Hnear.
      * intros (Hr & Hp & Hg & Hnear). repeat split; try done.
        { apply prefix_snoc_cases in Hp as [->|Hp]; [congruence|done]. }
        intros a Ha Hap Hag. apply Hnear; try done. by apply prefix_app_r.
Qed.

Lemma find_from_none (fs : filesystem) (p : path) :
  find_git_repo_from fs p = None ↔
  ∀ a, below_root a → a `prefix_of` p → contains_git fs a = false.
Proof.
  unfold below_root. induction p as [|c q IH] using rev_ind.
  - rewrite find_from_root. split; [|done].
    intros _ a Ha Hp. apply prefix_nil_inv in Hp. done.
  - rewrite find_from_snoc. destruct (contains_git fs (q ++ [c])) eqn:Hgit.
    + split; [done|]. intros H. rewrite H in Hgit; [done| |done]. by destruct q.
    + rewrite IH. split.
      * intros H a Ha Hap. apply prefix_snoc_cases in Hap as [->|Hap]; [done|].
        by apply H.
      * intros H a Ha Hap. apply H; [done|]. by apply prefix_app_r.
Qed.

(** C2, as the code has it: for every path, [find_git_repo] returns the
    nearest ancestor (the path itself included) that holds [.git] among the
    ancestors other than the filesystem root, however deep the path is, and
    returns [None] exactly when no ancestor other than the root holds
    [.git]. The root directory itself is never probed. *)
Theorem find_git_repo_nearest_below_root (fs : filesystem) (cwd : path) (p : string) :
  (∀ r, find_git_repo fs cwd p = Some r ↔
        nearest_repo below_root fs (Path.abspath cwd p) r) ∧
  (find_git_repo fs cwd p = None ↔
   ∀ a, below_root a → a `prefix_of` Path.abspath cwd p → contains_git fs a = false).
Proof.
  unfold find_git_repo. split.
  - intros r. apply find_from_some.
  - apply find_from_none.
Qed.

Lemma find_git_repo_nearest_below_root_witness :
  nearest_repo below_root (fs (machine true [])) ["repo"; "src"; "deep"; "er"] ["repo"].
Proof.
  apply (proj1 (find_git_repo_nearest_below_root
                  (fs (machine true [])) ["home"; "me"] "/repo/src/deep/er")).
  reflexivity.
Defined.

(** C2 as stated fails when the only directory that holds [.git] is the
    filesystem root: [/work] lies inside the repository at [/], the root is
    its nearest ancestor with [.git], and [find_git_repo] finds nothing. *)
Lemma find_git_repo_misses_root_repository :
  nearest_repo (fun _ => True) fs_root_repo (Path.abspath [] "/work") [] ∧
  find_git_repo fs_root_repo [] "/work" = None.
Proof.
  split; [|reflexivity].
  repeat split.
  - apply prefix_nil.
  - intros a _ Hp Hg. change (Path.abspath [] "/work") with ["work"] in Hp.
    destruct a as [|x a]; [done|].
    apply (prefix_snoc_cases _ [] "work") in Hp as [Heq|Hp].
    + simpl in Heq. injection Heq as -> ->. by vm_compute in Hg.
    + by apply prefix_nil_inv in Hp.
Qed.

(* ===================================================================== *)
(** * The commit operation and the executor *)
(* ===================================================================== *)

Lemma run_eq {A S : Type} (x : A * S) (a : A) : fst x = a → x = (a, snd x).
Proof. destruct x. cbn. by intros ->. Qed.

Lemma returned_eq {A : Type} (d : A) (r : result A) :
  is_returned r = true → r = Returned (returned_or d r).
Proof. by destruct r. Qed.

Section CommitFacts.

Context {E : Type}.
Variable exec : list string → path → filesystem * E → outcome * (filesystem * E).

(** A walk that arrives has arrived where the path leads when it is
    normalised as text. *)
Lemma resolve_dir_normal (f : filesystem) (parts : list string) (cur target : path) :
  FS.resolve_dir f cur parts = inr target → target = foldl Path.norm_step cur parts.
Proof.
  revert cur. induction parts as [|c parts IH]; intros cur; cbn [FS.resolve_dir foldl].
  - by intros [= <-].
  - unfold Path.norm_step at 2.
    destruct (decide (c = "" ∨ c = ".")); [apply IH|].
    destruct (decide (c = "..")); [apply IH|].
    destruct (f !! (cur ++ [c])) as [[|? ?]|]; [apply IH|done..].
Qed.

Lemma chdir_target_returned (f : filesystem) (cwd : path) (p : string) (target : path) :
  chdir_target f cwd p = Returned target → target = Path.abspath cwd p.
Proof.
  unfold chdir_target, Path.abspath.
  destruct (Str.has_nul p); [done|].
  destruct (decide (p = "")); [done|].
  destruct (FS.resolve_dir _ _ _) as [k|t] eqn:Hwalk; [done|].
  intros [= <-]. by apply resolve_dir_normal in Hwalk.
Qed.

Lemma os_chdir_returned (p : string) (s s1 : State E) (u : unit) :
  os_chdir p s = (Returned u, s1) →
  chdir_target (fs s) (cwd s) p = Returned (Path.abspath (cwd s) p) ∧
  s1 = set_cwd (Path.abspath (cwd s) p) s.
Proof.
  unfold os_chdir.
  destruct (chdir_target (fs s) (cwd s) p) as [target|e] eqn:Ht; [|done].
  intros [= <-]. by rewrite <- (chdir_target_returned _ _ _ _ Ht).
Qed.


(** [os.chdir] enters the directory that the system finds. *)
Lemma os_chdir_into (repo : string) (s : State E) (root : path) :
  chdir_target (fs s) (cwd s) repo = Returned root →
  os_chdir repo s = (Returned tt, set_cwd root s) ∧ root = Path.abspath (cwd s) repo.
Proof.
  intros H. unfold os_chdir. rewrite H. split; [done|].
  by apply chdir_target_returned in H.
Qed.

(** Symbolic execution of [commit_folder]: case analysis on what the
    external commands answer. *)
Ltac run_commit :=
  unfold try_except, bind, subprocess_run, get, ret, print, print_err, datetime_now,
    str_of;
  repeat first
    [ match goal with
      | |- context [exec ?c ?d ?w] => destruct (exec c d w) as [[?|?] ?] eqn:?
      | |- context [returncode ?c =? 0] => destruct (returncode c =? 0) eqn:?
      end
    | progress cbn beta iota zeta delta
        [fst snd andb negb cwd fs ext signals after_child put_stdout put_stderr tick
         is_Exception] ].

(** A path that is normalised to an existing directory need not lead
    there: [/nonexistent/../repo] names [/repo] as text, and [os.chdir]
    stops at the missing directory. *)
Lemma chdir_through_missing_directory :
  FS.isdir (fs (machine true [])) (Path.abspath ["home"; "me"] "/nonexistent/../repo") = true ∧
  chdir_target (fs (machine true [])) ["home"; "me"] "/nonexistent/../repo" =
    Raised (OSError ENOENT "/nonexistent/../repo").
Proof. split; vm_compute; reflexivity. Qed.


(** Past [os.chdir], every failure is turned into a return value, and the
    working directory stays where [os.chdir] put it. *)
Lemma commit_folder_returns_after_chdir (folder repo : string) (s s1 : State E) :
  os_chdir repo s = (Returned tt, s1) →
  ∃ b s', commit_folder exec folder repo s = (Returned b, s') ∧ cwd s' = cwd s1.
Proof.
  intros H. unfold commit_folder at 1. unfold bind at 1. rewrite H.
  run_commit; eauto.
Qed.


(** The executor exits with status 1 and the usage line when it is not
    given exactly two arguments. *)
Lemma executor_usage (argv : list string) (s : State E) :
  length argv ≠ 3%nat →
  run_script (executor_main exec argv) s =
  (1, put_stdout "Usage: git_commit_executor.py <folder_path> <repo_path>" s).
Proof.
  intros H. unfold run_script, executor_main.
  destruct (length argv =? 3)%nat eqn:Hlen.
  - apply Nat.eqb_eq in Hlen. done.
  - reflexivity.
Qed.

(** With two arguments it exits with status 0 whenever [commit_folder]
    returns, whatever it returns. *)
Lemma executor_exit_0 (exe folder repo : string) (s s' : State E) (b : bool) :
  commit_folder exec folder repo s = (Returned b, s') →
  run_script (executor_main exec [exe; folder; repo]) s = (0, s').
Proof.
  intros H. unfold run_script, executor_main, bind. simpl. by rewrite H.
Qed.

End CommitFacts.



(** C1 fails on the code: [os.chdir(repo_path)] is called before the [try]
    block, so for a repository path that is not a directory the exception
    leaves [commit_folder]; nothing is printed and nothing is returned. *)
Theorem commit_folder_raises_for_missing_repo :
  commit_folder tools_exec "/repo/src" "/nonexistent" (machine true []) =
  (Raised (OSError ENOENT "/nonexistent"), machine true []).
Proof. vm_compute. reflexivity. Qed.

(** C5 fails on the code for the same reason: with two arguments of which
    the second is not a directory, the executor ends with a traceback and
    exit status 1, not 0. *)
Theorem executor_exit_1_for_missing_repo :
  run_script (executor_main tools_exec
                ["git_commit_executor.py"; "/repo/src"; "/nonexistent"])
             (machine true []) =
  (1, put_stderr ("Traceback (most recent call last): "
                  +:+ "[Errno 2] No such file or directory: '/nonexistent'")
                 (machine true [])).
Proof. vm_compute. reflexivity. Qed.

Section NoChanges.

Context {E : Type}.
Variable exec : list string → path → filesystem * E → outcome * (filesystem * E).

(** One run on a folder without pending changes: the three probes are
    spawned, the notice is printed, and [True] is returned. *)
Lemma commit_folder_no_changes (folder repo : string) (s : State E) :
  staged_diff_empty exec folder repo s = true →
  ∃ s', commit_folder exec folder repo s = (Returned true, s') ∧
        stdout s' = stdout s ++ ["No changes to commit."] ∧
        stderr s' = stderr s ∧
        ∃ rel, spawned s' = spawned s ++
          [["git"; "status"]; ["git"; "add"; rel]; ["git"; "diff"; "--cached"; "--quiet"]].
Proof.
  unfold staged_diff_empty, commit_folder. unfold bind at 1.
  destruct (os_chdir repo s) as [[[]|e] s1] eqn:Hcd; [|done].
  apply os_chdir_returned in Hcd as (_ & ->).
  unfold try_except, bind, subprocess_run, get, ret, print.
  cbn beta iota zeta delta [fst snd cwd fs ext set_cwd].
  destruct (exec ["git"; "status"] _ _) as [[c1|m1] [f1 e1]]; [|done].
  intros [H1 H]%andb_prop. rewrite H1.
  cbn beta iota zeta delta [fst snd andb negb cwd fs ext after_child set_cwd].
  destruct (exec ["git"; "add"; _] _ _) as [[c2|m2] [f2 e2]]; [|done].
  apply andb_prop in H as [H2 H]. rewrite H2.
  cbn beta iota zeta delta [fst snd andb negb cwd fs ext after_child set_cwd].
  destruct (exec ["git"; "diff"; "--cached"; "--quiet"] _ _) as [[c3|m3] [f3 e3]]; [|done].
  rewrite H.
  eexists. split; [reflexivity|].
  cbn. rewrite <- !app_assoc. eauto.
Qed.

Lemma filter_commit_probes (l : list (list string)) (rel : string) :
  List.filter is_git_commit
    (l ++ [["git"; "status"]; ["git"; "add"; rel]; ["git"; "diff"; "--cached"; "--quiet"]])
  = List.filter is_git_commit l.
Proof. rewrite List.filter_app. cbn. apply app_nil_r. Qed.

(** C3: while the folder has no pending changes, every invocation prints
    the notice and returns [True], nothing reaches the error stream, and no
    [git commit] is ever spawned; this holds for any number of invocations
    in a row. *)
Theorem commit_folder_no_changes_idempotent
    (n : nat) (folder repo : string) (s : State E) :
  unchanged_for exec n folder repo s = true →
  fst (repeat_commit exec n folder repo s) = replicate n (Returned true) ∧
  stdout (snd (repeat_commit exec n folder repo s)) =
    stdout s ++ replicate n "No changes to commit." ∧
  stderr (snd (repeat_commit exec n folder repo s)) = stderr s ∧
  List.filter is_git_commit (spawned (snd (repeat_commit exec n folder repo s))) =
    List.filter is_git_commit (spawned s).
Proof.
  revert s. induction n as [|n IH]; intros s.
  - intros _. cbn. by rewrite app_nil_r.
  - cbn [unchanged_for repeat_commit]. intros [H1 H]%andb_prop.
    destruct (commit_folder_no_changes folder repo s H1)
      as (s1 & Hrun & Hout & Herr & rel & Hsp).
    rewrite Hrun in *. cbn [snd] in H.
    destruct (IH s1 H) as (Hr & Ho & He & Hc).
    destruct (repeat_commit exec n folder repo s1) as [rs s2].
    cbn [fst snd] in *. repeat split.
    + by rewrite Hr.
    + rewrite Ho, Hout, <- app_assoc. done.
    + by rewrite He.
    + rewrite Hc, Hsp. apply filter_commit_probes.
Qed.

End NoChanges.

(** On the small machine the hypothesis of the theorem maintains itself: a
    run on a settled repository finds no changes, leaves the repository
    settled and adds no commit to its log. *)
Lemma settled_run (s : State Tools) :
  settled s →
  staged_diff_empty tools_exec "/repo/src" "/repo" s = true ∧
  settled (snd (commit_folder tools_exec "/repo/src" "/repo" s)) ∧
  log (ext (snd (commit_folder tools_exec "/repo/src" "/repo" s))) = log (ext s).
Proof.
  destruct s as [c i o e sp t cl sg h f [root u st lg]].
  unfold settled. cbn [fs ext git_root unstaged staged].
  intros (Hdir & -> & -> & ->).
  assert (chdir_target f c "/repo" = Returned ["repo"]) as Hcd.
  { unfold FS.isdir in Hdir. unfold chdir_target. simpl.
    destruct (f !! ["repo"]) as [[|? ?]|]; done. }
  unfold staged_diff_empty, commit_folder, bind, os_chdir.
  cbn [fs ext cwd]. rewrite Hcd. vm_compute. done.
Qed.

Lemma settled_stays (n : nat) (s : State Tools) :
  settled s →
  unchanged_for tools_exec n "/repo/src" "/repo" s = true ∧
  log (ext (snd (repeat_commit tools_exec n "/repo/src" "/repo" s))) = log (ext s).
Proof.
  revert s. induction n as [|n IH]; intros s Hs; [done|].
  destruct (settled_run s Hs) as (Hnow & Hnext & Hlog).
  destruct (IH _ Hnext) as [Hrest Hlog'].
  cbn [unchanged_for repeat_commit]. rewrite Hnow, Hrest. split; [done|].
  destruct (commit_folder tools_exec "/repo/src" "/repo" s) as [r s1].
  cbn [snd] in *.
  destruct (repeat_commit tools_exec n "/repo/src" "/repo" s1) as [rs s2].
  cbn [snd] in *. congruence.
Qed.

Lemma commit_folder_no_changes_idempotent_witness :
  fst (repeat_commit tools_exec 3 "/repo/src" "/repo" (machine false [])) =
    replicate 3 (Returned true) ∧
  log (ext (snd (repeat_commit tools_exec 3 "/repo/src" "/repo" (machine false [])))) = [].
Proof.
  split.
  - apply (commit_folder_no_changes_idempotent tools_exec 3 "/repo/src" "/repo"
             (machine false [])).
    vm_compute. reflexivity.
  - vm_compute. reflexivity.
Defined.

(* ===================================================================== *)
(** * The prompts of the setup *)
(* ===================================================================== *)

Section SetupFacts.

Context {E : Type}.

Lemma while_input_cons {A : Type} (prompt : string) (body : string → M E (option A))
    (s : State E) (line : string) (rest : list string) :
  stdin s = line :: rest →
  while_input prompt body s =
  match body line (put_stdout prompt (set_stdin rest s)) with
  | (Returned (Some a), s') => (Returned a, s')
  | (Returned None, s') => prompt_loop prompt body rest s'
  | (Raised e, s') => (Raised e, s')
  end.
Proof. unfold while_input. by intros ->. Qed.

(** A round that answers [continue] hands the rest of the input to the
    next round. *)
Lemma while_input_reprompt {A : Type} (prompt : string) (body : string → M E (option A))
    (s s' : State E) (line : string) (rest : list string) :
  stdin s = line :: rest →
  body line (put_stdout prompt (set_stdin rest s)) = (Returned None, s') →
  stdin s' = rest →
  while_input prompt body s = while_input prompt body s'.
Proof.
  intros Hin Hbody Hrest. rewrite (while_input_cons _ _ _ _ _ Hin), Hbody.
  unfold while_input. by rewrite Hrest.
Qed.

Lemma strptime_nonempty (text : string) (d : date) :
  Parse.strptime_ymd text = Some d → text ≠ "".
Proof. by intros H ->. Qed.

(** A date that parses and lies before today is refused. *)
Lemma date_step_past (line : string) (d : date) (s : State E) :
  Parse.strptime_ymd (Str.strip line) = Some d →
  Cal.date_ltb d (dt_date (clock s (ticks s))) = true →
  date_step line s =
  (Returned None, put_stdout "Date must be today or in the future." (tick s)).
Proof.
  intros Hparse Hpast. unfold date_step, bind, ret, print, datetime_now.
  destruct (decide (Str.strip line = "")) as [Hempty|_].
  { by apply strptime_nonempty in Hparse. }
  rewrite Hparse. by rewrite Hpast.
Qed.

(** What a round of the date prompt can do: it takes clock readings and
    prints, and a date it lets through was compared with one of the
    readings and found not to be earlier. *)
Lemma date_step_sound (line : string) (s s' : State E) (r : option date) :
  date_step line s = (Returned r, s') →
  clock s' = clock s ∧ stdin s' = stdin s ∧ (ticks s ≤ ticks s')%nat ∧
  ∀ d, r = Some d →
       ∃ k, (ticks s ≤ k < ticks s')%nat ∧
            Cal.date_ltb d (dt_date (clock s k)) = false.
Proof.
  unfold date_step, bind, ret, print, datetime_now.
  destruct (decide (Str.strip line = "")) as [_|_].
  - cbn. destruct (Cal.date_ltb _ _) eqn:Hlt; intros [= <- <-]; cbn.
    + repeat split; [lia|done].
    + repeat split; [lia|]. intros d [= <-]. exists (S (ticks s)). split; [lia|done].
  - destruct (Parse.strptime_ymd (Str.strip line)) as [d0|]; cbn.
    + destruct (Cal.date_ltb _ _) eqn:Hlt; intros [= <- <-]; cbn.
      * repeat split; [lia|done].
      * repeat split; [lia|]. intros d [= <-]. exists (ticks s). split; [lia|done].
    + intros [= <- <-]. cbn. repeat split; [lia|done].
Qed.

Lemma date_loop_sound (lines : list string) (s s' : State E) (d : date) :
  prompt_loop date_prompt date_step lines s = (Returned d, s') →
  clock s' = clock s ∧
  ∃ k, (ticks s ≤ k < ticks s')%nat ∧ Cal.date_ltb d (dt_date (clock s k)) = false.
Proof.
  revert s. induction lines as [|line rest IH]; intros s; cbn [prompt_loop].
  - done.
  - destruct (date_step line _) as [[[r|]|e] s1] eqn:Hstep; [| |done].
    + intros [= <- <-].
      apply date_step_sound in Hstep as (Hc & _ & _ & Hd).
      destruct (Hd r eq_refl) as (k & Hk & Hlt). cbn in *.
      split; [done|]. by exists k.
    + intros Hloop. apply date_step_sound in Hstep as (Hc & _ & Ht & _).
      apply IH in Hloop as (Hc' & k & Hk & Hlt). cbn in *.
      rewrite Hc in Hc', Hlt. split; [done|]. exists k. split; [lia|done].
Qed.

Lemma prompt_loop_keeps_clock {A : Type} (prompt : string)
    (body : string → M E (option A)) :
  (∀ line s s' r, body line s = (r, s') → clock s' = clock s ∧ ticks s' = ticks s) →
  ∀ lines s r s',
    prompt_loop prompt body lines s = (r, s') → clock s' = clock s ∧ ticks s' = ticks s.
Proof.
  intros Hbody lines. induction lines as [|line rest IH]; intros s r s'; cbn [prompt_loop].
  - by intros [= <- <-].
  - destruct (body line _) as [[[a|]|e] s1] eqn:Hstep;
      apply Hbody in Hstep as [Hc Ht]; cbn in Hc, Ht.
    + by intros [= <- <-].
    + intros [Hc' Ht']%IH. split; congruence.
    + by intros [= <- <-].
Qed.

Lemma folder_step_keeps_clock (line : string) (s s' : State E)
    (r : result (option (path * path))) :
  folder_step line s = (r, s') → clock s' = clock s ∧ ticks s' = ticks s.
Proof.
  unfold folder_step, bind, get, print, ret.
  destruct (decide (Str.strip line = "")); [by intros [= <- <-]|].
  destruct (negb (FS.exists_ _ _)); [by intros [= <- <-]|].
  destruct (negb (FS.isdir _ _)); [by intros [= <- <-]|].
  destruct (find_git_repo _ _ _); by intros [= <- <-].
Qed.

Lemma time_step_keeps_clock (line : string) (s s' : State E)
    (r : result (option (Z * Z))) :
  time_step line s = (r, s') → clock s' = clock s ∧ ticks s' = ticks s.
Proof.
  unfold time_step, bind, print, ret.
  destruct (parse_time _); by intros [= <- <-].
Qed.

Lemma date_ltb_day_succ (d x : date) :
  Cal.date_ltb d x = false →
  Cal.date_ltb (Date (year d) (month d) (day d + 1)) x = false.
Proof.
  unfold Cal.date_ltb. cbn.
  destruct (Z.ltb_spec (year d) (year x)), (Z.eqb_spec (year d) (year x)),
    (Z.ltb_spec (month d) (month x)), (Z.eqb_spec (month d) (month x)),
    (Z.ltb_spec (day d) (day x)), (Z.ltb_spec (day d + 1) (day x));
    cbn; try done; lia.
Qed.

(** The target that [combine_target] returns is on the chosen day or has
    the next day number; one clock reading is taken. *)
Lemma combine_target_returned (d : date) (h m : Z) (s s' : State E) (t : datetime) :
  combine_target d h m s = (Returned t, s') →
  clock s' = clock s ∧ ticks s' = S (ticks s) ∧
  (dt_date t = d ∨ dt_date t = Date (year d) (month d) (day d + 1)).
Proof.
  unfold combine_target, bind, datetime_now, print, replace_day. cbn.
  destruct (Cal.datetime_ltb _ _); cbn.
  - destruct (Cal.valid_date _); [|done]. intros [= <- <-]. cbn. auto.
  - intros [= <- <-]. cbn. split; [done|]. split; [done|]. left. by destruct d.
Qed.

(** No target reaches the caller of [get_user_input], and so the
    registration of a job, with a day earlier than the clock showed when
    the date was checked. *)
Lemma get_user_input_not_past (s s' : State E) (folder repo : path) (t : datetime) :
  get_user_input s = (Returned (folder, repo, t), s') →
  ∃ k, (ticks s ≤ k < ticks s')%nat ∧
       Cal.date_ltb (dt_date t) (dt_date (clock s k)) = false.
Proof.
  unfold get_user_input. unfold bind at 1 2 3 4. unfold print at 1 2 3 4.
  unfold bind at 1.
  destruct (while_input folder_prompt _ _) as [[fr|e] sa] eqn:Hf; [|done].
  unfold while_input in Hf.
  apply (prompt_loop_keeps_clock _ _ folder_step_keeps_clock) in Hf as [Hca Hta].
  unfold bind at 1.
  destruct (while_input date_prompt _ _) as [[d|e] sb] eqn:Hd; [|done].
  unfold while_input in Hd.
  apply date_loop_sound in Hd as (Hcb & k & Hk & Hlt).
  unfold bind at 1.
  destruct (while_input time_prompt _ _) as [[hm|e] sc] eqn:Ht; [|done].
  unfold while_input in Ht.
  apply (prompt_loop_keeps_clock _ _ time_step_keeps_clock) in Ht as [Hcc Htc].
  unfold bind at 1.
  destruct (combine_target _ _ _ _) as [[t'|e] sd] eqn:Hc; [|done].
  apply combine_target_returned in Hc as (Hcd & Htd & Hdate).
  unfold ret. intros [= _ _ <- <-].
  cbn in Hca, Hta. rewrite Hca in Hlt. exists k. split; [lia|].
  destruct Hdate as [->| ->]; [done|]. by apply date_ltb_day_succ.
Qed.

(** C6: a line that parses to a date before today is answered with the
    refusal and a new prompt, the loop going on with the rest of the input;
    whatever date leaves the loop was compared with a clock reading taken
    during the loop and was not earlier than that day; and the target that
    [get_user_input] hands on for registration is no earlier either. *)
Theorem date_prompt_rejects_past_dates :
  (∀ (s : State E) (line : string) (rest : list string) (d : date),
     stdin s = line :: rest →
     Parse.strptime_ymd (Str.strip line) = Some d →
     Cal.date_ltb d (dt_date (clock s (ticks s))) = true →
     while_input date_prompt date_step s =
     while_input date_prompt date_step
       (put_stdout "Date must be today or in the future."
          (tick (put_stdout date_prompt (set_stdin rest s))))) ∧
  (∀ (s s' : State E) (d : date),
     while_input date_prompt date_step s = (Returned d, s') →
     ∃ k, (ticks s ≤ k < ticks s')%nat ∧
          Cal.date_ltb d (dt_date (clock s k)) = false) ∧
  (∀ (s s' : State E) (folder repo : path) (t : datetime),
     get_user_input s = (Returned (folder, repo, t), s') →
     ∃ k, (ticks s ≤ k < ticks s')%nat ∧
          Cal.date_ltb (dt_date t) (dt_date (clock s k)) = false).
Proof.
  split; [|split; [|apply get_user_input_not_past]].
  - intros s line rest d Hin Hparse Hpast.
    apply (while_input_reprompt _ _ _ _ line rest Hin); [|done].
    by apply (date_step_past _ d).
  - intros s s' d Hloop. by apply date_loop_sound in Hloop as (_ & Hk).
Qed.

End SetupFacts.

Lemma date_prompt_rejects_past_dates_witness :
  while_input date_prompt date_step (machine true ["2025-01-30"; "2025-02-01"]) =
  while_input date_prompt date_step
    (put_stdout "Date must be today or in the future."
       (tick (put_stdout date_prompt (set_stdin ["2025-02-01"] (machine true []))))) ∧
  ∃ k, (0 ≤ k < 1)%nat ∧ Cal.date_ltb (Date 2025 2 1) (dt_date (noon 2025 1 31)) = false.
Proof.
  split.
  - apply (proj1 (@date_prompt_rejects_past_dates Tools)
             (machine true ["2025-01-30"; "2025-02-01"]) "2025-01-30" ["2025-02-01"]
             (Date 2025 1 30)); reflexivity.
  - apply (proj1 (proj2 (@date_prompt_rejects_past_dates Tools))
             (machine true ["2025-02-01"])
             (snd (while_input date_prompt date_step (machine true ["2025-02-01"])))
             (Date 2025 2 1)).
    vm_compute. reflexivity.
Defined.

Section TimeFacts.

Context {E : Type}.

Lemma digit_range (a : ascii) :
  Str.is_digit a = true → (48 ≤ nat_of_ascii a ≤ 57)%nat.
Proof.
  unfold Str.is_digit. intros [H1 H2]%andb_prop.
  apply Nat.leb_le in H1, H2. lia.
Qed.

Lemma digit_not_space (a : ascii) : Str.is_digit a = true → Str.is_c_space a = false.
Proof.
  intros H%digit_range. unfold Str.is_c_space.
  apply orb_false_intro.
  - apply andb_false_iff. right. apply Nat.leb_gt. lia.
  - apply Nat.eqb_neq. lia.
Qed.

Lemma digit_not_other (a c : ascii) :
  Str.is_digit a = true → Str.is_digit c = false → Ascii.eqb a c = false.
Proof. intros Ha Hc. apply Ascii.eqb_neq. intros ->. congruence. Qed.

Lemma strip_two_digits (a b : ascii) :
  Str.is_digit a = true → Str.is_digit b = true →
  Str.strip_of Str.is_c_space (String a (String b "")) = String a (String b "").
Proof.
  intros Ha%digit_not_space Hb%digit_not_space.
  unfold Str.strip_of, Str.rstrip_of. cbn. rewrite Ha. cbn. by rewrite Hb.
Qed.

(** [int] on two digits. *)
Lemma python_int_two_digits (a b : ascii) :
  Str.is_digit a = true → Str.is_digit b = true →
  Parse.python_int (String a (String b "")) = Some (10 * Str.digit_val a + Str.digit_val b).
Proof.
  intros Ha Hb. unfold Parse.python_int. rewrite strip_two_digits by done.
  rewrite (digit_not_other a "+"), (digit_not_other a "-") by done.
  unfold Parse.unsigned_int. rewrite (digit_not_other a "_") by done.
  cbn. rewrite Ha, Hb. cbn. f_equal; lia.
Qed.

Lemma split_on_hh_mm (a b c d : ascii) :
  Str.is_digit a = true → Str.is_digit b = true →
  Str.is_digit c = true → Str.is_digit d = true →
  Str.split_on ":" (String a (String b (String ":" (String c (String d ""))))) =
  [String a (String b ""); String c (String d "")].
Proof.
  intros Ha Hb Hc Hd. cbn.
  by rewrite (digit_not_other a ":"), (digit_not_other b ":"),
    (digit_not_other c ":"), (digit_not_other d ":").
Qed.

(** What [parse_time] accepts. *)
Lemma parse_time_some (time_input : string) (hm : Z * Z) :
  parse_time time_input = Some hm ↔
  in_range hm = true ∧
  ∃ a b, Str.split_on ":" time_input = [a; b] ∧
         Parse.python_int a = Some (fst hm) ∧ Parse.python_int b = Some (snd hm).
Proof.
  unfold parse_time, in_range.
  destruct (Str.split_on ":" time_input) as [|a [|b l]]; cbn [map].
  - split; [done|]. by intros (_ & a & b & ? & _).
  - split; [by destruct (Parse.python_int a)|]. by intros (_ & ? & ? & ? & _).
  - destruct (Parse.python_int a) as [h|] eqn:Ha.
    2:{ split; [done|]. intros (_ & a' & b' & [= <- <- _] & ? & _). congruence. }
    destruct (Parse.python_int b) as [m|] eqn:Hb.
    2:{ split; [done|]. intros (_ & a' & b' & [= <- <- _] & _ & ?). congruence. }
    destruct l as [|c l]; cbn [map].
    2:{ split; [done|]. by intros (_ & a' & b' & ? & _). }
    destruct ((0 <=? h) && (h <=? 23) && (0 <=? m) && (m <=? 59)) eqn:Hr; cbn.
    + split.
      * intros [= <-]. split; [done|]. by exists a, b.
      * intros (_ & a' & b' & [= <- <-] & Ha' & Hb').
        destruct hm. cbn in *. congruence.
    + split; [done|].
      intros (Hr' & a' & b' & [= <- <-] & Ha' & Hb').
      destruct hm. cbn in *. congruence.
Qed.

Lemma parse_time_strict (time_input : string) (hm : Z * Z) :
  strict_HH_MM time_input = Some hm →
  parse_time time_input = if in_range hm then Some hm else None.
Proof.
  unfold strict_HH_MM.
  destruct time_input as [|a [|b [|sep [|c [|d [|]]]]]]; try done.
  destruct (Str.is_digit a) eqn:Ha; [|done].
  destruct (Str.is_digit b) eqn:Hb; [|done].
  destruct (Ascii.eqb sep ":") eqn:Hsep; [|done].
  destruct (Str.is_digit c) eqn:Hc; [|done].
  destruct (Str.is_digit d) eqn:Hd; [|done].
  apply Ascii.eqb_eq in Hsep as ->. cbn [andb]. intros [= <-].
  unfold parse_time. rewrite split_on_hh_mm by done. cbn [map].
  rewrite !python_int_two_digits by done. unfold in_range. cbn [fst snd].
  by destruct (_ && _).
Qed.

(** C7, as the code has it: a line is accepted exactly when, stripped, it
    splits at the colon into two parts that [int] both accept, an hour in
    0..23 and a minute in 0..59, and the loop then ends with those two
    numbers; every other line is answered with the format message and a new
    prompt; a line of the strict shape HH:MM is accepted if and only if its
    two numbers are in range. *)
Theorem time_prompt_accepts_integer_pairs
    (s : State E) (line : string) (rest : list string) :
  stdin s = line :: rest →
  (∀ hm, parse_time (Str.strip line) = Some hm ↔
         in_range hm = true ∧
         ∃ a b, Str.split_on ":" (Str.strip line) = [a; b] ∧
                Parse.python_int a = Some (fst hm) ∧
                Parse.python_int b = Some (snd hm)) ∧
  (∀ hm, parse_time (Str.strip line) = Some hm →
         while_input time_prompt time_step s =
         (Returned hm, put_stdout time_prompt (set_stdin rest s))) ∧
  (parse_time (Str.strip line) = None →
   while_input time_prompt time_step s =
   while_input time_prompt time_step
     (put_stdout "Invalid time format. Please use HH:MM (e.g., 04:00)"
        (put_stdout time_prompt (set_stdin rest s)))) ∧
  (∀ hm, strict_HH_MM (Str.strip line) = Some hm →
         parse_time (Str.strip line) = if in_range hm then Some hm else None).
Proof.
  intros Hin. split; [|split; [|split]].
  - intros hm. apply parse_time_some.
  - intros hm Hp. rewrite (while_input_cons _ _ _ _ _ Hin).
    unfold time_step. by rewrite Hp.
  - intros Hp. apply (while_input_reprompt _ _ _ _ line rest Hin); [|done].
    unfold time_step. by rewrite Hp.
  - apply parse_time_strict.
Qed.

End TimeFacts.

Lemma time_prompt_accepts_integer_pairs_witness :
  while_input time_prompt time_step (machine true [" +4 : 0_5 "; "04:00"]) =
  (Returned (4, 5), put_stdout time_prompt (set_stdin ["04:00"] (machine true []))).
Proof.
  apply (time_prompt_accepts_integer_pairs
           (machine true [" +4 : 0_5 "; "04:00"]) " +4 : 0_5 " ["04:00"] eq_refl).
  reflexivity.
Defined.

(** C7 as stated fails: the line [4:5] is not of the shape HH:MM, and the
    prompt accepts it as 04:05. *)
Lemma time_prompt_accepts_single_digits :
  strict_HH_MM (Str.strip "4:5") = None ∧
  fst (while_input time_prompt time_step (machine true ["4:5"])) = Returned (4, 5).
Proof. split; vm_compute; reflexivity. Qed.

(** [int] does not skip the separators that [str.strip] removes: with
    the unit separator (31) after the hour the line is refused, at the end
    of the line it is stripped and the line accepted. *)
Lemma parse_time_unit_separator :
  parse_time (Str.strip ("4" +:+ String "031" ":05")) = None ∧
  parse_time (Str.strip ("4:05" +:+ String "031" "")) = Some (4, 5).
Proof. split; vm_compute; reflexivity. Qed.

Section TargetFacts.

Context {E : Type}.

(** A target that is not in the past is kept. *)
Lemma combine_target_kept (d : date) (h m : Z) (s : State E) :
  Cal.datetime_ltb (Cal.combine d h m) (clock s (ticks s)) = false →
  combine_target d h m s = (Returned (Cal.combine d h m), tick s).
Proof.
  intros H. unfold combine_target, bind, datetime_now. cbn. by rewrite H.
Qed.

(** A past target on a day that is not the last of its month moves to the
    next calendar day. *)
Lemma combine_target_next_day (d : date) (h m : Z) (s : State E) :
  Cal.datetime_ltb (Cal.combine d h m) (clock s (ticks s)) = true →
  Cal.valid_date d = true →
  day d < Cal.days_in_month (year d) (month d) →
  combine_target d h m s =
  (Returned (Cal.combine (Cal.next_day d) h m), put_stdout (past_warning d h m) (tick s)).
Proof.
  intros Hpast Hvalid Hday.
  unfold combine_target, bind, datetime_now, print, replace_day. cbn.
  rewrite Hpast. cbn.
  unfold Cal.valid_date in *. cbn.
  repeat (apply andb_prop in Hvalid as [Hvalid ?]).
  replace (day d + 1 <=? Cal.days_in_month (year d) (month d)) with true
    by (symmetry; apply Z.leb_le; lia).
  replace (1 <=? day d + 1) with true
    by (symmetry; apply Z.leb_le; apply Z.leb_le in H0; lia).
  rewrite Hvalid, H3, H2, H1. cbn.
  unfold ret, Cal.next_day, Cal.combine.
  replace (day d <? Cal.days_in_month (year d) (month d)) with true
    by (symmetry; apply Z.ltb_lt; lia).
  reflexivity.
Qed.

(** A past target on the last day of a month makes [replace] raise. *)
Lemma combine_target_month_end (d : date) (h m : Z) (s : State E) :
  Cal.datetime_ltb (Cal.combine d h m) (clock s (ticks s)) = true →
  day d = Cal.days_in_month (year d) (month d) →
  combine_target d h m s =
  (Raised (ValueError "day is out of range for month"),
   put_stdout (past_warning d h m) (tick s)).
Proof.
  intros Hpast Hday.
  unfold combine_target, bind, datetime_now, print, replace_day. cbn.
  rewrite Hpast. cbn.
  unfold Cal.valid_date. cbn.
  replace (day d + 1 <=? Cal.days_in_month (year d) (month d)) with false
    by (symmetry; apply Z.leb_gt; lia).
  by rewrite andb_false_r.
Qed.

End TargetFacts.

(** C4 fails on the code on the last day of a month: on 31 January at noon,
    with the date left blank and the time 09:00, the target is in the past,
    the warning is printed, and [replace(day=32)] raises [ValueError]
    instead of giving 1 February. *)
Theorem get_user_input_raises_at_month_end :
  Cal.next_day (Date 2025 1 31) = Date 2025 2 1 ∧
  fst (get_user_input (machine true ["/repo/src"; ""; "09:00"])) =
  Raised (ValueError "day is out of range for month") ∧
  last (stdout (snd (get_user_input (machine true ["/repo/src"; ""; "09:00"])))) =
  Some "Warning: 2025-01-31 09:00:00 is in the past. Using tomorrow instead.".
Proof. repeat split; vm_compute; reflexivity. Qed.

(* ===================================================================== *)
(** * Job labels *)
(* ===================================================================== *)

Lemma string_length_app (x t : string) :
  String.length (x +:+ t) = (String.length x + String.length t)%nat.
Proof. induction x as [|c x IH]; simpl; [done|]. by rewrite IH. Qed.

Lemma string_app_inv_tail (x y t : string) : x +:+ t = y +:+ t → x = y.
Proof.
  revert y. induction x as [|c x IH]; intros [|c' y] H.
  - done.
  - apply (f_equal String.length) in H.
    rewrite !string_length_app in H. cbn in H. lia.
  - apply (f_equal String.length) in H.
    rewrite !string_length_app in H. cbn in H. lia.
  - cbn in H. injection H as -> H. f_equal. by apply IH.
Qed.

Lemma strftime_label_same_minute (t1 t2 : datetime) :
  same_minute t1 t2 = true → Cal.strftime_label t1 = Cal.strftime_label t2.
Proof.
  unfold same_minute, Cal.strftime_label.
  intros H. repeat (apply andb_prop in H as [H ?]).
  apply Z.eqb_eq in H, H0, H1, H2, H3. by rewrite H, H0, H1, H2, H3.
Qed.

Lemma remove_char_elem (c a : ascii) (s : string) :
  a ∈ Str.to_list (Str.remove_char c s) ↔ a ∈ Str.to_list s ∧ a ≠ c.
Proof.
  unfold Str.to_list. induction s as [|b s IH]; cbn.
  - split; [by intros ?%elem_of_nil|by intros [?%elem_of_nil _]].
  - destruct (Ascii.eqb_spec b c) as [->|Hne]; cbn; rewrite ?elem_of_cons, IH.
    + split; [tauto|]. intros [[->|?] ?]; [done|tauto].
    + split; [|tauto]. intros [->|[? ?]]; [split; [by left|done]|tauto].
Qed.

Lemma lower_char_not_upper (c : ascii) : Str.is_upper (Str.lower_char c) = false.
Proof.
  unfold Str.lower_char. destruct (Str.is_upper c) eqn:Hup; [|done].
  unfold Str.is_upper in *. apply andb_prop in Hup as [H1 H2].
  apply Nat.leb_le in H1, H2.
  rewrite nat_ascii_embedding by lia.
  apply andb_false_iff. right. apply Nat.leb_gt. lia.
Qed.

Lemma lower_elem (a : ascii) (s : string) :
  a ∈ Str.to_list (Str.lower s) → Str.is_upper a = false.
Proof.
  unfold Str.to_list. induction s as [|b s IH]; cbn.
  - by intros ?%elem_of_nil.
  - intros [->|?]%elem_of_cons; [apply lower_char_not_upper|by apply IH].
Qed.

(** The normalised name holds no upper-case letter, no space and no
    hyphen. *)
Lemma normalize_name_clean (name : string) (a : ascii) :
  a ∈ Str.to_list (normalize_name name) →
  Str.is_upper a = false ∧ a ≠ " "%char ∧ a ≠ "-"%char.
Proof.
  unfold normalize_name.
  intros [[Hlow Hsp]%remove_char_elem Hhy]%remove_char_elem.
  by apply lower_elem in Hlow.
Qed.

Lemma lower_char_space (a : ascii) :
  Ascii.eqb (Str.lower_char a) " " = Ascii.eqb a " ".
Proof. by destruct a as [[] [] [] [] [] [] [] []]. Qed.

Lemma lower_char_hyphen (a : ascii) :
  Ascii.eqb (Str.lower_char a) "-" = Ascii.eqb a "-".
Proof. by destruct a as [[] [] [] [] [] [] [] []]. Qed.

(** The chain of [lower] and the two [replace] of the code does what the
    specification says. *)
Lemma normalize_name_spec (name : string) :
  normalize_name name = spec_normalized_name name.
Proof.
  unfold normalize_name. induction name as [|a rest IH]; [done|].
  cbn [Str.lower Str.remove_char spec_normalized_name].
  rewrite lower_char_space. destruct (Ascii.eqb a " "); cbn [orb]; [exact IH|].
  cbn [Str.remove_char]. rewrite lower_char_hyphen.
  destruct (Ascii.eqb a "-"); [exact IH|]. by rewrite IH.
Qed.

Lemma string_app_inj_length (x y a b : string) :
  String.length a = String.length b → x +:+ a = y +:+ b → x = y ∧ a = b.
Proof.
  intros Hlen. revert y. induction x as [|c x IH]; intros [|c' y] H.
  - done.
  - apply (f_equal String.length) in H.
    change (String.length a = String.length (String c' y +:+ b)) in H.
    rewrite string_length_app in H. cbn in H. lia.
  - apply (f_equal String.length) in H.
    change (String.length (String c x +:+ a) = String.length b) in H.
    rewrite string_length_app in H. cbn in H. lia.
  - cbn in H. injection H as -> H. apply IH in H as [-> ->]. done.
Qed.

Lemma strftime_label_length (t : datetime) :
  String.length (Cal.strftime_label t) = 12%nat.
Proof. reflexivity. Qed.

Lemma digit_char_inj (a b : Z) : Str.digit_char a = Str.digit_char b → a mod 10 = b mod 10.
Proof.
  unfold Str.digit_char. intros H. apply (f_equal nat_of_ascii) in H.
  pose proof (Z.mod_pos_bound a 10 ltac:(lia)).
  pose proof (Z.mod_pos_bound b 10 ltac:(lia)).
  rewrite !nat_ascii_embedding in H by lia. lia.
Qed.

Lemma pad2_inj (a b : Z) : 0 ≤ a < 100 → 0 ≤ b < 100 → Str.pad2 a = Str.pad2 b → a = b.
Proof.
  unfold Str.pad2. intros Ha Hb [= H1%digit_char_inj H2%digit_char_inj].
  revert H1 H2. Z.div_mod_to_equations. lia.
Qed.

Lemma pad4_inj (a b : Z) :
  0 ≤ a < 10000 → 0 ≤ b < 10000 → Str.pad4 a = Str.pad4 b → a = b.
Proof.
  unfold Str.pad4, Str.pad2.
  intros Ha Hb [= H1%digit_char_inj H2%digit_char_inj H3%digit_char_inj H4%digit_char_inj].
  revert H1 H2 H3 H4. Z.div_mod_to_equations. lia.
Qed.

Lemma valid_minute_bounds (t : datetime) :
  Cal.valid_minute t = true →
  0 ≤ year (dt_date t) < 10000 ∧ 0 ≤ month (dt_date t) < 100 ∧
  0 ≤ day (dt_date t) < 100 ∧ 0 ≤ hour t < 100 ∧ 0 ≤ minute t < 100.
Proof.
  unfold Cal.valid_minute, Cal.valid_date, Cal.days_in_month. intros H.
  repeat (apply andb_prop in H as [H ?]).
  repeat match goal with
         | H : (_ <=? _) = true |- _ => apply Z.leb_le in H
         end.
  assert (day (dt_date t) ≤ 31); [|lia].
  repeat match goal with
         | H : _ ≤ (if ?b then _ else _) |- _ => destruct b
         end; lia.
Qed.

(** Timestamps that [datetime] allows and that are written alike to the
    minute are in the same minute. *)
Lemma strftime_label_inj (t1 t2 : datetime) :
  Cal.valid_minute t1 = true → Cal.valid_minute t2 = true →
  Cal.strftime_label t1 = Cal.strftime_label t2 → same_minute t1 t2 = true.
Proof.
  intros (Hy1 & Hm1 & Hd1 & Hh1 & Hn1)%valid_minute_bounds
         (Hy2 & Hm2 & Hd2 & Hh2 & Hn2)%valid_minute_bounds H.
  unfold Cal.strftime_label in H.
  apply (string_app_inj_length (Str.pad4 _) (Str.pad4 _)) in H as [Hy H]; [|done].
  apply (string_app_inj_length (Str.pad2 _) (Str.pad2 _)) in H as [Hm H]; [|done].
  apply (string_app_inj_length (Str.pad2 _) (Str.pad2 _)) in H as [Hd H]; [|done].
  apply (string_app_inj_length (Str.pad2 _) (Str.pad2 _)) in H as [Hh Hn]; [|done].
  apply pad4_inj in Hy; [|done..]. apply pad2_inj in Hm, Hd, Hh, Hn; [|done..].
  unfold same_minute. rewrite Hy, Hm, Hd, Hh, Hn, !Z.eqb_refl. done.
Qed.

(** A name without upper-case letters, spaces and hyphens is its own
    normalisation. *)
Lemma spec_normalized_name_clean (name : string) :
  (∀ a, a ∈ Str.to_list name → Str.is_upper a = false ∧ a ≠ " "%char ∧ a ≠ "-"%char) →
  spec_normalized_name name = name.
Proof.
  unfold Str.to_list. induction name as [|a rest IH]; [done|].
  intros H. cbn [spec_normalized_name].
  destruct (H a ltac:(by left)) as (Hup & Hsp & Hhy).
  apply Ascii.eqb_neq in Hsp, Hhy. rewrite Hsp, Hhy. cbn [orb].
  unfold Str.lower_char. rewrite Hup. f_equal. apply IH.
  intros b Hb. apply H. by right.
Qed.

(** Two labels are equal exactly when the normalised names and the
    timestamps written to the minute are. *)
Lemma job_label_inj (cwd1 cwd2 : path) (folder1 folder2 : string) (t1 t2 : datetime) :
  job_label cwd1 folder1 t1 = job_label cwd2 folder2 t2 ↔
  normalize_name (Path.basename (Path.abspath cwd1 folder1)) =
    normalize_name (Path.basename (Path.abspath cwd2 folder2)) ∧
  Cal.strftime_label t1 = Cal.strftime_label t2.
Proof.
  unfold job_label. split.
  - intros H%String.app_inj.
    apply string_app_inj_length in H as [Hn Ht]; [|done].
    split; [done|]. by apply (String.app_inj ".") in Ht.
  - by intros [-> ->].
Qed.

(** C8: the label is the fixed prefix, the base name of the folder
    lower-cased and without its spaces and hyphens, a dot, and the target
    written to the minute as twelve digits. The name so normalised holds no
    upper-case letter, space or hyphen, and a base name that holds none is
    taken as it is. Two labels are equal exactly when the normalised names
    and the timestamps so written are equal; seconds and microseconds do
    not enter, and timestamps in different minutes are written differently.
    So for two folders scheduled for the same minute the labels are equal
    exactly when the names normalise identically. *)
Theorem job_label_by_normalized_name
    (cwd1 cwd2 : path) (folder1 folder2 : string) (t1 t2 : datetime) :
  let name1 := Path.basename (Path.abspath cwd1 folder1) in
  let name2 := Path.basename (Path.abspath cwd2 folder2) in
  job_label cwd1 folder1 t1 =
    "com.gitcommit." +:+ spec_normalized_name name1 +:+ "." +:+ Cal.strftime_label t1 ∧
  (∀ a, a ∈ Str.to_list (spec_normalized_name name1) →
        Str.is_upper a = false ∧ a ≠ " "%char ∧ a ≠ "-"%char) ∧
  ((∀ a, a ∈ Str.to_list name1 →
         Str.is_upper a = false ∧ a ≠ " "%char ∧ a ≠ "-"%char) →
   spec_normalized_name name1 = name1) ∧
  (job_label cwd1 folder1 t1 = job_label cwd2 folder2 t2 ↔
   spec_normalized_name name1 = spec_normalized_name name2 ∧
   Cal.strftime_label t1 = Cal.strftime_label t2) ∧
  (same_minute t1 t2 = true → Cal.strftime_label t1 = Cal.strftime_label t2) ∧
  (Cal.valid_minute t1 = true → Cal.valid_minute t2 = true →
   Cal.strftime_label t1 = Cal.strftime_label t2 → same_minute t1 t2 = true) ∧
  (same_minute t1 t2 = true →
   (job_label cwd1 folder1 t1 = job_label cwd2 folder2 t2 ↔
    spec_normalized_name name1 = spec_normalized_name name2)).
Proof.
  intros name1 name2.
  pose proof (job_label_inj cwd1 cwd2 folder1 folder2 t1 t2) as Hinj.
  rewrite !normalize_name_spec in Hinj. fold name1 name2 in Hinj.
  split; [|split; [|split; [|split; [|split; [|split]]]]].
  - unfold job_label. by rewrite normalize_name_spec.
  - intros a. rewrite <- normalize_name_spec. apply normalize_name_clean.
  - apply spec_normalized_name_clean.
  - exact Hinj.
  - apply strftime_label_same_minute.
  - apply strftime_label_inj.
  - intros Hmin%strftime_label_same_minute. rewrite Hinj. tauto.
Qed.

Lemma job_label_by_normalized_name_witness :
  job_label ["repo"] "My-Src" (noon 2025 2 1) =
    job_label ["tmp"] "/tmp/my src/" (DateTime (Date 2025 2 1) 12 0 30 5) ∧
  same_minute (noon 2025 2 1) (DateTime (Date 2025 2 1) 12 0 30 5) = true.
Proof.
  pose proof (job_label_by_normalized_name ["repo"] ["tmp"] "My-Src" "/tmp/my src/"
                (noon 2025 2 1) (DateTime (Date 2025 2 1) 12 0 30 5))
    as (_ & _ & _ & _ & _ & Hminute & Hsame).
  split.
  - apply (Hsame eq_refl). reflexivity.
  - apply Hminute; reflexivity.
Defined.

(* ===================================================================== *)
(** * Job registration *)
(* ===================================================================== *)

Lemma makedirs_go_step (c : string) (todo : list string) (f f' : filesystem)
    (done : path) :
  makedirs_go f done (c :: todo) = (Returned tt, f') →
  Str.has_nul c = false ∧
  ((f !! (done ++ [c]) = Some Dir ∧ makedirs_go f (done ++ [c]) todo = (Returned tt, f')) ∨
   (f !! (done ++ [c]) = None ∧
    makedirs_go (<[done ++ [c] := Dir]> f) (done ++ [c]) todo = (Returned tt, f'))).
Proof.
  cbn [makedirs_go]. destruct (Str.has_nul c); [done|].
  destruct (f !! (done ++ [c])) as [[|? ?]|]; [by auto| |by auto].
  destruct todo as [|c' ?]; [done|]. by destruct (Str.has_nul c').
Qed.

(** [os.makedirs] only adds directories, also when it raises. *)
Lemma makedirs_go_kept (todo : list string) (f f' : filesystem) (done : path)
    {r : result unit} :
  makedirs_go f done todo = (r, f') →
  ∀ q v, f !! q = Some v → f' !! q = Some v.
Proof.
  revert f done. induction todo as [|c todo IH]; intros f done; cbn [makedirs_go].
  - by intros [= <- <-].
  - destruct (Str.has_nul c); [by intros [= <- <-]|].
    destruct (f !! (done ++ [c])) as [[|? ?]|] eqn:Hq.
    + apply IH.
    + destruct todo as [|c' ?]; [by intros [= <- <-]|].
      destruct (Str.has_nul c'); by intros [= <- <-].
    + intros H q v Hv. apply (IH _ _ H).
      rewrite lookup_insert_ne; [done|]. congruence.
Qed.

Lemma makedirs_go_made (todo : list string) (f f' : filesystem) (done : path) :
  makedirs_go f done todo = (Returned tt, f') →
  ∀ k, (0 < k ≤ length todo)%nat → f' !! (done ++ take k todo) = Some Dir.
Proof.
  revert f done. induction todo as [|c todo IH]; intros f done.
  - intros _ k Hk. cbn in Hk. lia.
  - intros (_ & Hstep)%makedirs_go_step k Hk.
    destruct k as [|k]; [lia|]. cbn [take].
    rewrite (cons_middle c), app_assoc.
    destruct (decide (k = 0%nat)) as [->|Hk0].
    + rewrite take_0, app_nil_r.
      destruct Hstep as [[Hq H]|[Hq H]].
      * by apply (makedirs_go_kept _ _ _ _ H).
      * apply (makedirs_go_kept _ _ _ _ H). by rewrite lookup_insert_eq.
    + cbn in Hk. destruct Hstep as [[Hq H]|[Hq H]]; apply (IH _ _ H); lia.
Qed.



Section RegistrationFacts.

Context {E : Type}.
Variable exec : list string → path → filesystem * E → outcome * (filesystem * E).


Lemma os_makedirs_returned (p : path) (s s' : State E) (u : unit) :
  os_makedirs p s = (Returned u, s') →
  ∃ f', makedirs_go (fs s) [] p = (Returned tt, f') ∧ s' = set_fs f' s.
Proof.
  unfold os_makedirs. destruct (makedirs_go (fs s) [] p) as [[[]|e] f']; [|done].
  intros [= <-]. by exists f'.
Qed.

Lemma write_file_returned (p : path) (c : content) (s s' : State E) (u : unit) :
  write_file p c s = (Returned u, s') →
  Str.has_nul (Path.str p) = false ∧
  ∃ x, s' = set_fs (<[p := File c x]> (fs s)) s.
Proof.
  unfold write_file. destruct (Str.has_nul _); [done|]. destruct (negb _); [done|].
  destruct (fs s !! p) as [[|c0 x]|].
  - done.
  - intros [= <-]. split; [done|]. by exists x.
  - destruct p; [done|]. intros [= <-]. split; [done|]. by exists false.
Qed.




(** The scheduler's directory depends on the home directory only. *)
Lemma launchd_dir_home (s s' : State E) :
  home s' = home s → launchd_dir s' = launchd_dir s.
Proof.
  unfold launchd_dir. intros ->. unfold Path.abspath.
  destruct (home s) as [|h hs]; [done|].
  reflexivity.
Qed.




End RegistrationFacts.



(* ===================================================================== *)
(** * More on the commit operation *)
(* ===================================================================== *)

Section CommitOutcomes.

Context {E : Type}.
Variable exec : list string → path → filesystem * E → outcome * (filesystem * E).

Lemma os_chdir_enters (repo : string) (s : State E) (root : path) :
  chdir_target (fs s) (cwd s) repo = Returned root →
  os_chdir repo s = (Returned tt, set_cwd root s).
Proof. by intros [? _]%os_chdir_into. Qed.

Ltac run_git :=
  unfold try_except, bind, subprocess_run, get, ret, print, print_err, datetime_now,
    str_of;
  repeat first
    [ match goal with
      | |- context [exec ?c ?d ?w] => destruct (exec c d w) as [[?|?] ?] eqn:?
      | |- context [returncode ?c =? 0] => destruct (returncode c =? 0) eqn:?
      end
    | progress cbn beta iota zeta delta
        [fst snd andb negb cwd fs ext stdout stderr spawned ticks clock signals
         after_child put_stdout put_stderr tick set_cwd is_Exception] ].

(** X1: called with a repository path that [os.chdir] can enter, every
    directory named on the way being there, [commit_folder] returns, and
    the commands it has handed to [subprocess] are a
    non-empty initial part of: git status, git add of the folder's path
    relative to the repository followed by a slash, git diff --cached
    --quiet, git commit -m with the message "Auto-commit", the folder's base
    name and the time of the clock. Each is spawned at most once, in this
    order, and [True] is returned only when the diff was reached. *)
Theorem commit_folder_commands (folder repo : string) (s : State E) (root : path) :
  chdir_target (fs s) (cwd s) repo = Returned root →
  let rel := Path.relpath (Path.abspath root folder) (Path.abspath root repo) in
  let msg := "Auto-commit " +:+ Path.basename (Path.abspath root folder) +:+ " - "
             +:+ Cal.strftime_seconds (clock s (ticks s)) in
  ∃ b s' k,
    commit_folder exec folder repo s = (Returned b, s') ∧
    (1 ≤ k ≤ 4)%nat ∧ (b = true → (3 ≤ k)%nat) ∧
    spawned s' = spawned s ++ take k (commit_commands (rel +:+ "/") msg).
Proof.
  intros Hcd rel msg.
  unfold commit_folder at 1. unfold bind at 1.
  rewrite (os_chdir_enters repo s root Hcd).
  run_git.
  all: try (eexists _, _, 1%nat; split; [reflexivity|]; split; [lia|];
            split; [intros ?; first [discriminate|lia]|]; reflexivity).
  all: try (eexists _, _, 2%nat; split; [reflexivity|]; split; [lia|];
            split; [intros ?; first [discriminate|lia]|]; cbn; by rewrite <- !app_assoc).
  all: try (eexists _, _, 3%nat; split; [reflexivity|]; split; [lia|];
            split; [intros ?; first [discriminate|lia]|]; cbn; by rewrite <- !app_assoc).
  all: try (eexists _, _, 4%nat; split; [reflexivity|]; split; [lia|];
            split; [intros ?; first [discriminate|lia]|]; cbn; by rewrite <- !app_assoc).
Qed.

(** X2: called with a repository path that [os.chdir] can enter,
    [commit_folder] prints exactly one line: on standard output, the notice
    of no changes or of success, when it returns [True]; on the error
    stream, leaving standard output alone, when it returns [False]. *)
Theorem commit_folder_reports (folder repo : string) (s : State E) (root : path) :
  chdir_target (fs s) (cwd s) repo = Returned root →
  let name := Path.basename (Path.abspath root folder) in
  ∃ b s',
    commit_folder exec folder repo s = (Returned b, s') ∧
    if b then
      stderr s' = stderr s ∧
      (stdout s' = stdout s ++ ["No changes to commit."] ∨
       stdout s' = stdout s ++ ["Successfully committed " +:+ name +:+ "!"])
    else
      stdout s' = stdout s ∧ ∃ line, stderr s' = stderr s ++ [line].
Proof.
  intros Hcd name.
  unfold commit_folder at 1. unfold bind at 1.
  rewrite (os_chdir_enters repo s root Hcd).
  run_git.
  all: eexists _, _; (split; [reflexivity|]); cbn; eauto.
Qed.

(** X3: when [os.chdir] can enter the repository and [git status] ends
    with a non-zero status, [commit_folder] returns [False] with the line
    "Git error: Command '['git', 'status']' ..." on the error stream, which
    says "returned non-zero exit status n." for a status n above zero and
    "died with ..." the signal for a child that a signal ended; no other
    command is spawned: nothing is staged or committed. *)
Theorem commit_folder_status_fails (folder repo : string) (s : State E) (root : path)
    (c : completed) :
  chdir_target (fs s) (cwd s) repo = Returned root →
  fst (exec ["git"; "status"] root (fs s, ext s)) = Ran c →
  returncode c ≠ 0 →
  ∃ s',
    commit_folder exec folder repo s = (Returned false, s') ∧
    spawned s' = spawned s ++ [["git"; "status"]] ∧
    stdout s' = stdout s ∧
    stderr s' = stderr s ++
      ["Git error: Command '['git', 'status']' " +:+
       (if 0 <? returncode c
        then "returned non-zero exit status " +:+ pretty (returncode c) +:+ "."
        else match signals s (- returncode c) with
             | Some name =>
                 "died with <Signals." +:+ name +:+ ": "
                 +:+ pretty (- returncode c) +:+ ">."
             | None => "died with unknown signal " +:+ pretty (- returncode c) +:+ "."
             end)].
Proof.
  intros Hcd. unfold commit_folder at 1. unfold bind at 1.
  rewrite (os_chdir_enters repo s root Hcd).
  unfold try_except, bind, subprocess_run, get, ret, print_err, str_of.
  cbn [cwd fs ext set_cwd].
  destruct (exec ["git"; "status"] _ _) as [o w]. cbn [fst]. intros -> Hrc.
  pose proof Hrc as Hrc'. apply Z.eqb_neq in Hrc'. rewrite Hrc'.
  cbn [negb andb is_Exception fst snd signals after_child].
  eexists. split; [reflexivity|]. cbn [spawned stdout stderr put_stderr].
  split; [done|]. split; [done|]. do 2 f_equal. unfold str_exn.
  change (join_comma (map repr_str ["git"; "status"])) with "'git', 'status'".
  destruct (Z.ltb_spec (returncode c) 0), (Z.ltb_spec 0 (returncode c));
    try lia; reflexivity.
Qed.

(** X4: when [os.chdir] can enter the repository and git cannot be
    started at all, the exception of [subprocess] is caught: [commit_folder] returns [False] with the line "Error: ..." on
    the error stream, after the one attempt. *)
Theorem commit_folder_git_missing (folder repo msg : string) (s : State E) (root : path) :
  chdir_target (fs s) (cwd s) repo = Returned root →
  fst (exec ["git"; "status"] root (fs s, ext s)) = NotStarted msg →
  ∃ s',
    commit_folder exec folder repo s = (Returned false, s') ∧
    spawned s' = spawned s ++ [["git"; "status"]] ∧
    stdout s' = stdout s ∧
    stderr s' = stderr s ++ ["Error: " +:+ msg].
Proof.
  intros Hcd. unfold commit_folder at 1. unfold bind at 1.
  rewrite (os_chdir_enters repo s root Hcd).
  unfold try_except, bind, subprocess_run, get, ret, print_err, str_of.
  cbn [cwd fs ext set_cwd].
  destruct (exec ["git"; "status"] _ _) as [o w]. cbn [fst]. intros ->. cbn.
  eexists. split; [reflexivity|]. done.
Qed.

(** X5: when [os.chdir] can enter the repository, [git status] succeeds
    and [git add] exits with a non-zero status, [commit_folder]
    returns [False] with "Error adding files: " and git's own message on the
    error stream; the diff and the commit are not spawned, and the machine
    is left as [git add] left it. *)
Theorem commit_folder_add_fails (folder repo : string) (s : State E) (root : path)
    (c1 c2 : completed) :
  chdir_target (fs s) (cwd s) repo = Returned root →
  let rel := Path.relpath (Path.abspath root folder) (Path.abspath root repo) in
  let r1 := exec ["git"; "status"] root (fs s, ext s) in
  let r2 := exec ["git"; "add"; rel +:+ "/"] root (snd r1) in
  fst r1 = Ran c1 → returncode c1 = 0 →
  fst r2 = Ran c2 → returncode c2 ≠ 0 →
  ∃ s',
    commit_folder exec folder repo s = (Returned false, s') ∧
    spawned s' = spawned s ++ [["git"; "status"]; ["git"; "add"; rel +:+ "/"]] ∧
    stdout s' = stdout s ∧
    stderr s' = stderr s ++ ["Error adding files: " +:+ err c2] ∧
    (fs s', ext s') = snd r2.
Proof.
  intros Hcd rel r1 r2. subst r1 r2.
  unfold commit_folder at 1. unfold bind at 1.
  rewrite (os_chdir_enters repo s root Hcd).
  unfold try_except, bind, subprocess_run, get, ret, print_err.
  cbn [cwd fs ext set_cwd]. fold rel.
  destruct (exec ["git"; "status"] _ _) as [o1 [f1 e1]]. cbn [fst snd].
  intros -> ->. cbn [Z.eqb negb andb cwd fs ext after_child fst snd].
  destruct (exec ["git"; "add"; _] _ _) as [o2 [f2 e2]]. cbn [fst snd].
  intros -> Hrc. apply Z.eqb_neq in Hrc. rewrite Hrc. cbn.
  eexists. split; [reflexivity|]. cbn. by rewrite <- app_assoc.
Qed.

(** X6: when [os.chdir] can enter the repository, [git status] and
    [git add] succeed and the staged diff is not empty, [commit_folder] spawns the four commands, the last being the
    commit with the message "Auto-commit", the folder's base name and the
    time of the clock; it returns [True] and prints the success line exactly
    when the commit exits with status 0, and otherwise returns [False] with
    "Error committing: " and git's message on the error stream. *)
Theorem commit_folder_commits (folder repo : string) (s : State E) (root : path)
    (c1 c2 c3 c4 : completed) :
  chdir_target (fs s) (cwd s) repo = Returned root →
  let name := Path.basename (Path.abspath root folder) in
  let rel := Path.relpath (Path.abspath root folder) (Path.abspath root repo) in
  let msg := "Auto-commit " +:+ name +:+ " - "
             +:+ Cal.strftime_seconds (clock s (ticks s)) in
  let r1 := exec ["git"; "status"] root (fs s, ext s) in
  let r2 := exec ["git"; "add"; rel +:+ "/"] root (snd r1) in
  let r3 := exec ["git"; "diff"; "--cached"; "--quiet"] root (snd r2) in
  let r4 := exec ["git"; "commit"; "-m"; msg] root (snd r3) in
  fst r1 = Ran c1 → returncode c1 = 0 →
  fst r2 = Ran c2 → returncode c2 = 0 →
  fst r3 = Ran c3 → returncode c3 ≠ 0 →
  fst r4 = Ran c4 →
  ∃ s',
    commit_folder exec folder repo s = (Returned (returncode c4 =? 0), s') ∧
    spawned s' = spawned s ++ commit_commands (rel +:+ "/") msg ∧
    (fs s', ext s') = snd r4 ∧
    if returncode c4 =? 0 then
      stdout s' = stdout s ++ ["Successfully committed " +:+ name +:+ "!"] ∧
      stderr s' = stderr s
    else
      stdout s' = stdout s ∧
      stderr s' = stderr s ++ ["Error committing: " +:+ err c4].
Proof.
  intros Hcd name rel msg r1 r2 r3 r4. subst r1 r2 r3 r4.
  unfold commit_folder at 1. unfold bind at 1.
  rewrite (os_chdir_enters repo s root Hcd).
  unfold try_except, bind, subprocess_run, get, ret, print, print_err, datetime_now.
  cbn [cwd fs ext set_cwd]. fold name rel.
  destruct (exec ["git"; "status"] _ _) as [o1 [f1 e1]]. cbn [fst snd].
  intros -> ->. cbn [Z.eqb negb andb cwd fs ext after_child fst snd].
  destruct (exec ["git"; "add"; _] _ _) as [o2 [f2 e2]]. cbn [fst snd].
  intros -> ->. cbn [Z.eqb negb andb cwd fs ext after_child fst snd].
  destruct (exec ["git"; "diff"; _; _] _ _) as [o3 [f3 e3]]. cbn [fst snd].
  intros -> Hrc. apply Z.eqb_neq in Hrc. rewrite Hrc.
  cbn [Z.eqb negb andb cwd fs ext ticks clock tick after_child fst snd].
  fold msg.
  destruct (exec ["git"; "commit"; _; _] _ _) as [o4 [f4 e4]]. cbn [fst snd].
  intros ->. destruct (returncode c4 =? 0); cbn.
  - eexists. split; [reflexivity|]. cbn. by rewrite <- !app_assoc.
  - eexists. split; [reflexivity|]. cbn. by rewrite <- !app_assoc.
Qed.

End CommitOutcomes.

Lemma commit_folder_commands_witness :
  ∃ b s' k, commit_folder tools_exec "/repo/src" "/repo" (machine true []) = (Returned b, s') ∧
            (1 ≤ k ≤ 4)%nat.
Proof.
  destruct (commit_folder_commands tools_exec "/repo/src" "/repo" (machine true [])
              ["repo"] ltac:(vm_compute; reflexivity))
    as (b & s' & k & Hrun & Hk & _).
  by exists b, s', k.
Defined.

Lemma commit_folder_reports_witness :
  ∃ b s', commit_folder tools_exec "/repo/src" "/repo" (machine false []) = (Returned b, s').
Proof.
  destruct (commit_folder_reports tools_exec "/repo/src" "/repo" (machine false [])
              ["repo"] ltac:(vm_compute; reflexivity))
    as (b & s' & Hrun & _).
  by exists b, s'.
Defined.

Lemma commit_folder_status_fails_witness :
  ∃ s', commit_folder tools_exec "/tmp" "/tmp" (machine true []) = (Returned false, s').
Proof.
  destruct (commit_folder_status_fails tools_exec "/tmp" "/tmp" (machine true [])
              ["tmp"] (Completed 128 "" "fatal: not a git repository")
              ltac:(vm_compute; reflexivity)
              ltac:(vm_compute; reflexivity) ltac:(discriminate))
    as (s' & Hrun & _).
  by exists s'.
Defined.

Lemma commit_folder_git_missing_witness :
  ∃ s', commit_folder (scripted no_git) "/repo/src" "/repo" (machine true []) =
        (Returned false, s').
Proof.
  destruct (commit_folder_git_missing (scripted no_git) "/repo/src" "/repo"
              "[Errno 2] No such file or directory: 'git'" (machine true []) ["repo"]
              ltac:(vm_compute; reflexivity)
              ltac:(vm_compute; reflexivity))
    as (s' & Hrun & _).
  by exists s'.
Defined.

Lemma commit_folder_add_fails_witness :
  ∃ s', commit_folder (scripted add_fails) "/repo/src" "/repo" (machine true []) =
        (Returned false, s').
Proof.
  destruct (commit_folder_add_fails (scripted add_fails) "/repo/src" "/repo"
              (machine true []) ["repo"]
              (Completed 0 "" "")
              (Completed 128 "" "fatal: pathspec did not match any files")
              ltac:(vm_compute; reflexivity)
              ltac:(vm_compute; reflexivity) ltac:(reflexivity)
              ltac:(vm_compute; reflexivity) ltac:(discriminate))
    as (s' & Hrun & _).
  by exists s'.
Defined.

Lemma commit_folder_commits_witness :
  ∃ s', commit_folder tools_exec "/repo/src" "/repo" (machine true []) = (Returned true, s').
Proof.
  destruct (commit_folder_commits tools_exec "/repo/src" "/repo" (machine true [])
              ["repo"]
              (Completed 0 "" "") (Completed 0 "" "") (Completed 1 "" "")
              (Completed 0 "" "")
              ltac:(vm_compute; reflexivity)
              ltac:(vm_compute; reflexivity) ltac:(reflexivity)
              ltac:(vm_compute; reflexivity) ltac:(reflexivity)
              ltac:(vm_compute; reflexivity) ltac:(discriminate)
              ltac:(vm_compute; reflexivity))
    as (s' & Hrun & _).
  by exists s'.
Defined.

(* ===================================================================== *)
(** * Normalised paths *)
(* ===================================================================== *)

Lemma string_app_nil_r (s : string) : s +:+ "" = s.
Proof.
  induction s as [|c s IH]; [done|].
  change (String c s +:+ "") with (String c (s +:+ "")). by rewrite IH.
Qed.

Lemma split_on_nonempty (sep : ascii) (s : string) : Str.split_on sep s ≠ [].
Proof.
  destruct s as [|c s]; simpl; [done|].
  destruct (Ascii.eqb c sep); [done|]. by destruct (Str.split_on sep s).
Qed.

(** The parts [split] gives hold no separator. *)
Lemma split_on_parts (sep : ascii) (s x : string) :
  x ∈ Str.split_on sep s →
  forallb (fun a => negb (Ascii.eqb a sep)) (Str.to_list x) = true.
Proof.
  revert x. induction s as [|c s IH]; intros x; simpl.
  - by intros ->%list_elem_of_singleton.
  - destruct (Ascii.eqb c sep) eqn:Hc.
    + intros [->|Hx]%elem_of_cons; [done|]. by apply IH.
    + destruct (Str.split_on sep s) as [|h t] eqn:Hs.
      { by destruct (split_on_nonempty sep s). }
      intros [->|Hx]%elem_of_cons.
      * simpl. rewrite Hc. simpl. apply IH. by left.
      * apply IH. by right.
Qed.

(** Splitting a part followed by more text. *)
Lemma split_on_app (sep : ascii) (c t : string) :
  forallb (fun a => negb (Ascii.eqb a sep)) (Str.to_list c) = true →
  Str.split_on sep (c +:+ t) =
  match Str.split_on sep t with
  | h :: tl => (c +:+ h) :: tl
  | [] => [c]
  end.
Proof.
  induction c as [|a c IH]; simpl.
  - intros _. destruct (Str.split_on sep t) eqn:Ht; [|done].
    by destruct (split_on_nonempty sep t).
  - intros [Ha Hc]%andb_prop. apply negb_true_iff in Ha. rewrite Ha.
    rewrite (IH Hc). by destruct (Str.split_on sep t).
Qed.

Lemma clean_component_spec (c : string) :
  clean_component c = true →
  c ≠ "" ∧ c ≠ "." ∧ c ≠ ".." ∧
  forallb (fun a => negb (Ascii.eqb a "/")) (Str.to_list c) = true.
Proof.
  unfold clean_component. intros H.
  repeat (apply andb_prop in H as [H ?]).
  apply negb_true_iff in H, H1, H2.
  apply String.eqb_neq in H, H1, H2. done.
Qed.

Lemma norm_step_clean (acc : path) (c : string) :
  clean_component c = true → Path.norm_step acc c = acc ++ [c].
Proof.
  intros (H1 & H2 & H3 & _)%clean_component_spec. unfold Path.norm_step.
  destruct (decide (c = "" ∨ c = ".")) as [[?|?]|_]; [done..|].
  by destruct (decide (c = "..")).
Qed.

Lemma foldl_norm_step_clean (p acc : path) :
  clean_path p = true → foldl Path.norm_step acc p = acc ++ p.
Proof.
  revert acc. induction p as [|c p IH]; intros acc; simpl.
  - by rewrite app_nil_r.
  - intros [Hc Hp]%andb_prop. rewrite (norm_step_clean _ _ Hc), (IH _ Hp).
    by rewrite <- app_assoc.
Qed.

Lemma clean_path_app (p q : path) :
  clean_path (p ++ q) = clean_path p && clean_path q.
Proof. unfold clean_path. apply forallb_app. Qed.

Lemma clean_path_removelast (p : path) :
  clean_path p = true → clean_path (removelast p) = true.
Proof.
  destruct p as [|c p _] using rev_ind; [done|].
  rewrite removelast_last, clean_path_app. by intros [? _]%andb_prop.
Qed.

Lemma norm_step_keeps_clean (acc : path) (c : string) :
  forallb (fun a => negb (Ascii.eqb a "/")) (Str.to_list c) = true →
  clean_path acc = true → clean_path (Path.norm_step acc c) = true.
Proof.
  intros Hc Hacc. unfold Path.norm_step.
  destruct (decide (c = "" ∨ c = ".")) as [|Hne]; [done|].
  destruct (decide (c = "..")) as [|Hne']; [by apply clean_path_removelast|].
  rewrite clean_path_app, Hacc. simpl. rewrite andb_true_r.
  unfold clean_component. rewrite Hc, andb_true_r.
  rewrite !andb_true_iff, !negb_true_iff, !String.eqb_neq. tauto.
Qed.

(** [abspath] gives normalised paths. *)
Lemma abspath_clean (cwd : path) (p : string) :
  clean_path cwd = true → clean_path (Path.abspath cwd p) = true.
Proof.
  intros Hcwd. unfold Path.abspath.
  assert (clean_path (if Path.is_absolute p then [] else cwd) = true) as Hacc
    by (by destruct (Path.is_absolute p)).
  revert Hacc. generalize (if Path.is_absolute p then [] else cwd).
  pose proof (split_on_parts "/" p) as Hparts.
  induction (Str.split_on "/" p) as [|c l IH]; intros acc Hacc; simpl; [done|].
  apply IH.
  - intros x Hx. apply Hparts. by right.
  - apply norm_step_keeps_clean; [|done]. apply Hparts. by left.
Qed.

Lemma split_on_str (p : path) :
  clean_path p = true →
  Str.split_on "/" (Str.concat (map (String.append "/") p)) = "" :: p.
Proof.
  induction p as [|c p IH]; [done|].
  intros [Hc Hp]%andb_prop. apply clean_component_spec in Hc as (_ & _ & _ & Hc).
  change ("" :: Str.split_on "/" (c +:+ Str.concat (map (String.append "/") p))
          = "" :: c :: p).
  rewrite (split_on_app _ _ _ Hc), (IH Hp). by rewrite string_app_nil_r.
Qed.

(** The text of a normalised path names that path, from any directory. *)
Lemma abspath_str (cwd p : path) :
  clean_path p = true → Path.abspath cwd (Path.str p) = p.
Proof.
  intros Hp. destruct p as [|c p]; [done|].
  unfold Path.abspath, Path.str.
  rewrite (split_on_str _ Hp).
  replace (Path.is_absolute (Str.concat (map (String.append "/") (c :: p))))
    with true by reflexivity.
  change (foldl Path.norm_step [] ("" :: c :: p))
    with (foldl Path.norm_step (Path.norm_step [] "") (c :: p)).
  replace (Path.norm_step [] "") with (@nil string) by reflexivity.
  by rewrite (foldl_norm_step_clean _ _ Hp).
Qed.

(* ===================================================================== *)
(** * More on the prompts of the setup *)
(* ===================================================================== *)

Section SetupOutcomes.

Context {E : Type}.

Lemma only_talked_refl (s : State E) : only_talked s s.
Proof. by repeat split. Qed.

Lemma only_talked_trans (s1 s2 s3 : State E) :
  only_talked s1 s2 → only_talked s2 s3 → only_talked s1 s3.
Proof.
  unfold only_talked. intros (?&?&?&?&?&?&?) (?&?&?&?&?&?&?).
  repeat split; congruence.
Qed.

(** A prompt loop whose rounds never raise and only talk: it only talks,
    ends by [EOFError] only, at the end of the input, and what it returns
    was let through by a round. *)
Lemma prompt_loop_outcome {A : Type} (prompt : string)
    (body : string → M E (option A)) (Q : State E → A → Prop) :
  (∀ s s' a, only_talked s s' → Q s' a → Q s a) →
  (∀ line s, ∃ r s', body line s = (Returned r, s') ∧ only_talked s s' ∧
                     ∀ a, r = Some a → Q s a) →
  ∀ lines s r s',
    prompt_loop prompt body lines s = (r, s') →
    only_talked s s' ∧
    match r with
    | Returned a => Q s a
    | Raised e => e = EOFError ∧ stdin s' = []
    end.
Proof.
  intros HQ Hbody lines.
  induction lines as [|line rest IH]; intros s r s'; cbn [prompt_loop].
  - intros [= <- <-]. by repeat split.
  - destruct (Hbody line (put_stdout prompt (set_stdin rest s)))
      as (r1 & s1 & -> & Htalk & Hlet).
    assert (only_talked s s1) as Hs1.
    { apply (only_talked_trans _ (put_stdout prompt (set_stdin rest s))); [|done].
      by repeat split. }
    destruct r1 as [a|].
    + intros [= <- <-]. split; [done|].
      apply (HQ _ (put_stdout prompt (set_stdin rest s))); [by repeat split|].
      by apply Hlet.
    + intros Hloop. apply IH in Hloop as [Htalk' Hr].
      split; [by apply (only_talked_trans _ s1)|].
      destruct r as [a|e]; [|done]. by apply (HQ _ s1).
Qed.

Lemma folder_step_outcome (line : string) (s : State E) :
  ∃ r s', folder_step line s = (Returned r, s') ∧ only_talked s s' ∧
          ∀ fr, r = Some fr → folder_ok s fr.
Proof.
  unfold folder_step, bind, get, print, ret.
  destruct (decide (Str.strip line = "")).
  { eexists _, _. split; [reflexivity|]. split; [by repeat split|done]. }
  set (folder := Path.abspath (cwd s) (Path.expanduser (home s) (Str.strip line))).
  destruct (FS.exists_ (fs s) folder); cbn [negb].
  2:{ eexists _, _. split; [reflexivity|]. split; [by repeat split|done]. }
  destruct (FS.isdir (fs s) folder) eqn:Hdir; cbn [negb].
  2:{ eexists _, _. split; [reflexivity|]. split; [by repeat split|done]. }
  destruct (find_git_repo (fs s) (cwd s) (Path.str folder)) as [repo|] eqn:Hfind.
  2:{ eexists _, _. split; [reflexivity|]. split; [by repeat split|done]. }
  eexists _, _. split; [reflexivity|]. split; [by repeat split|].
  intros fr [= <-] Hclean. cbn [fst snd]. split; [done|].
  unfold find_git_repo in Hfind.
  rewrite abspath_str in Hfind by (by apply abspath_clean).
  by apply find_from_some.
Qed.

Lemma date_step_outcome (line : string) (s : State E) :
  ∃ r s', date_step line s = (Returned r, s') ∧ only_talked s s' ∧
          ∀ d : date, r = Some d → True.
Proof.
  unfold date_step, bind, ret, print, datetime_now.
  destruct (decide (Str.strip line = "")); cbn.
  - destruct (Cal.date_ltb _ _); eexists _, _;
      (split; [reflexivity|]); split; by repeat split.
  - destruct (Parse.strptime_ymd _); cbn.
    + destruct (Cal.date_ltb _ _); eexists _, _;
        (split; [reflexivity|]); split; by repeat split.
    + eexists _, _. split; [reflexivity|]. split; by repeat split.
Qed.

Lemma time_step_outcome (line : string) (s : State E) :
  ∃ r s', time_step line s = (Returned r, s') ∧ only_talked s s' ∧
          ∀ hm, r = Some hm → in_range hm = true.
Proof.
  unfold time_step, bind, ret, print.
  destruct (parse_time (Str.strip line)) as [hm|] eqn:Hp.
  - eexists _, _. split; [reflexivity|]. split; [by repeat split|].
    intros ? [= <-]. by apply parse_time_some in Hp as [? _].
  - eexists _, _. split; [reflexivity|]. split; [by repeat split|done].
Qed.

Lemma combine_target_outcome (d : date) (h m : Z) (s s' : State E)
    (r : result datetime) :
  combine_target d h m s = (r, s') →
  only_talked s s' ∧
  match r with
  | Returned t => hour t = h ∧ minute t = m ∧ second t = 0 ∧ microsecond t = 0
  | Raised e => e = ValueError "day is out of range for month"
  end.
Proof.
  unfold combine_target, bind, datetime_now, print, replace_day, ret, raise. cbn.
  destruct (Cal.datetime_ltb _ _); cbn.
  - destruct (Cal.valid_date _); intros [= <- <-]; split; by repeat split.
  - intros [= <- <-]. split; by repeat split.
Qed.

(** The steps of [get_user_input], one after the other. *)
Lemma get_user_input_steps (s s' : State E) (r : result (path * path * datetime)) :
  get_user_input s = (r, s') →
  only_talked s s' ∧
  match r with
  | Returned (folder, repo, t) =>
      folder_ok s (folder, repo) ∧
      in_range (hour t, minute t) = true ∧ second t = 0 ∧ microsecond t = 0
  | Raised e =>
      (e = EOFError ∧ stdin s' = []) ∨ e = ValueError "day is out of range for month"
  end.
Proof.
  unfold get_user_input. unfold bind at 1 2 3 4. unfold print at 1 2 3 4.
  set (s0 := put_stdout "" (put_stdout rule
               (put_stdout "Git Commit Scheduler" (put_stdout rule s)))).
  assert (only_talked s s0) as H0 by (by repeat split).
  unfold bind at 1.
  destruct (while_input folder_prompt _ _) as [rf sa] eqn:Hf.
  unfold while_input in Hf.
  apply (prompt_loop_outcome _ _ folder_ok) in Hf as [Ha Hfr];
    [| |apply folder_step_outcome].
  2:{ unfold folder_ok. intros s1 s2 a (Hc & Hfs & _) HQ. rewrite <- Hc, <- Hfs. done. }
  pose proof (only_talked_trans _ _ _ H0 Ha) as Hsa.
  destruct rf as [fr|e].
  2:{ intros [= <- <-]. split; [done|]. by left. }
  unfold bind at 1.
  destruct (while_input date_prompt _ _) as [rd sb] eqn:Hd.
  unfold while_input in Hd.
  apply (prompt_loop_outcome _ _ (fun _ _ => True)) in Hd as [Hb Hdr];
    [|done|apply date_step_outcome].
  pose proof (only_talked_trans _ _ _ Hsa Hb) as Hsb.
  destruct rd as [d|e].
  2:{ intros [= <- <-]. split; [done|]. by left. }
  unfold bind at 1.
  destruct (while_input time_prompt _ _) as [rt sc] eqn:Ht.
  unfold while_input in Ht.
  apply (prompt_loop_outcome _ _ (fun _ hm => in_range hm = true)) in Ht as [Hc Hhm];
    [|done|apply time_step_outcome].
  pose proof (only_talked_trans _ _ _ Hsb Hc) as Hsc.
  destruct rt as [hm|e].
  2:{ intros [= <- <-]. split; [done|]. by left. }
  unfold bind at 1.
  destruct (combine_target _ _ _ _) as [rc sd] eqn:Hct.
  apply combine_target_outcome in Hct as [Hd' Hrc].
  pose proof (only_talked_trans _ _ _ Hsc Hd') as Hsd.
  destruct rc as [t|e].
  2:{ intros [= <- <-]. split; [done|]. by right. }
  unfold ret. intros [= <- <-]. split; [done|].
  destruct Hrc as (Hh & Hm & Hsec & Hus).
  destruct fr as [folder repo], hm as [h m]. cbn [fst snd] in *.
  rewrite Hh, Hm. split; [exact Hfr|done].
Qed.



(** X12: started in a normalised working directory, [get_user_input]
    returns only a folder that is an existing directory, together with the
    nearest directory above it (itself included, the root excluded) that
    holds [.git]; in particular the folder lies inside the repository. *)
Theorem get_user_input_folder_in_repo
    (s s' : State E) (folder repo : path) (t : datetime) :
  clean_path (cwd s) = true →
  get_user_input s = (Returned (folder, repo, t), s') →
  FS.isdir (fs s) folder = true ∧ nearest_repo below_root (fs s) folder repo.
Proof. intros Hc [_ [H _]]%get_user_input_steps. by apply H. Qed.

(** X13: the target [get_user_input] returns has an hour from 0 to 23, a
    minute from 0 to 59, and no seconds or microseconds. *)
Theorem get_user_input_target_time
    (s s' : State E) (folder repo : path) (t : datetime) :
  get_user_input s = (Returned (folder, repo, t), s') →
  0 ≤ hour t ≤ 23 ∧ 0 ≤ minute t ≤ 59 ∧ second t = 0 ∧ microsecond t = 0.
Proof.
  intros [_ (_ & Hr & Hs & Hu)]%get_user_input_steps.
  unfold in_range in Hr. cbn [fst snd] in Hr.
  repeat (apply andb_prop in Hr as [Hr ?]).
  apply Z.leb_le in Hr, H, H0, H1. lia.
Qed.

Lemma isdir_exists (f : filesystem) (p : path) :
  FS.isdir f p = true → FS.exists_ f p = true.
Proof.
  unfold FS.isdir, FS.exists_. destruct p; [done|]. by destruct (f !! _).
Qed.

(** X14: a line that names an existing directory with no [.git] in it or
    in any directory above it below the root is answered with the two lines
    about the missing repository, and the folder prompt asks again. *)
Theorem folder_prompt_outside_repository
    (s : State E) (line : string) (rest : list string) :
  stdin s = line :: rest →
  clean_path (cwd s) = true →
  Str.strip line ≠ "" →
  let folder := Path.abspath (cwd s) (Path.expanduser (home s) (Str.strip line)) in
  FS.isdir (fs s) folder = true →
  (∀ a, below_root a → a `prefix_of` folder → contains_git (fs s) a = false) →
  while_input folder_prompt folder_step s =
  while_input folder_prompt folder_step
    (put_stdout "Please make sure the folder is inside a git repository."
       (put_stdout ("Error: No git repository found containing '"
                    +:+ Path.str folder +:+ "'")
          (put_stdout folder_prompt (set_stdin rest s)))).
Proof.
  intros Hin Hclean Hne folder Hdir Hnone.
  apply (while_input_reprompt _ _ _ _ line rest Hin); [|done].
  unfold folder_step, bind, get, print, ret.
  destruct (decide (Str.strip line = "")); [done|].
  cbn [cwd home fs put_stdout set_stdin]. fold folder.
  rewrite (isdir_exists _ _ Hdir), Hdir. cbn [negb].
  unfold find_git_repo. rewrite abspath_str by (by apply abspath_clean).
  by rewrite (proj2 (find_from_none _ _) Hnone).
Qed.

(** X15: an empty or blank answer to the date prompt gives the date of
    the clock and ends the loop, after two readings of the clock, provided
    the day has not changed between the two. *)
Theorem date_prompt_blank_is_today
    (s : State E) (line : string) (rest : list string) :
  stdin s = line :: rest →
  Str.strip line = "" →
  Cal.date_ltb (dt_date (clock s (ticks s))) (dt_date (clock s (S (ticks s)))) = false →
  while_input date_prompt date_step s =
  (Returned (dt_date (clock s (ticks s))),
   tick (tick (put_stdout date_prompt (set_stdin rest s)))).
Proof.
  intros Hin Hblank Hday. rewrite (while_input_cons _ _ _ _ _ Hin).
  unfold date_step, bind, ret, datetime_now.
  destruct (decide (Str.strip line = "")); [|done].
  cbn. by rewrite Hday.
Qed.

(** X16: a target in the past on a day that is not the last of its month is
    moved to the next calendar day, a valid date, at the same time of day,
    after the warning was printed. *)
Theorem past_target_moves_to_next_day (d : date) (h m : Z) (s : State E) :
  Cal.datetime_ltb (Cal.combine d h m) (clock s (ticks s)) = true →
  Cal.valid_date d = true →
  day d < Cal.days_in_month (year d) (month d) →
  combine_target d h m s =
    (Returned (Cal.combine (Cal.next_day d) h m),
     put_stdout (past_warning d h m) (tick s)) ∧
  Cal.next_day d = Date (year d) (month d) (day d + 1) ∧
  Cal.valid_date (Cal.next_day d) = true.
Proof.
  intros Hpast Hvalid Hday.
  split; [by apply combine_target_next_day|].
  assert (Cal.next_day d = Date (year d) (month d) (day d + 1)) as ->.
  { unfold Cal.next_day.
    by replace (day d <? Cal.days_in_month (year d) (month d)) with true
      by (symmetry; apply Z.ltb_lt; lia). }
  split; [done|].
  unfold Cal.valid_date in *. cbn [year month day].
  repeat (apply andb_prop in Hvalid as [Hvalid ?]).
  rewrite Hvalid, H3, H2, H1. cbn [andb].
  apply andb_true_intro. split; apply Z.leb_le; [|lia].
  apply Z.leb_le in H0. lia.
Qed.

End SetupOutcomes.


Lemma get_user_input_folder_in_repo_witness :
  FS.isdir (fs (machine true [])) ["repo"; "src"] = true ∧
  nearest_repo below_root (fs (machine true [])) ["repo"; "src"] ["repo"].
Proof.
  apply (get_user_input_folder_in_repo
           (machine true ["/repo/src"; "2025-02-01"; "9:00"])
           (snd (get_user_input (machine true ["/repo/src"; "2025-02-01"; "9:00"])))
           ["repo"; "src"] ["repo"] (DateTime (Date 2025 2 1) 9 0 0 0)).
  - vm_compute. reflexivity.
  - apply run_eq. vm_compute. reflexivity.
Defined.

Lemma get_user_input_target_time_witness :
  0 ≤ 9 ≤ 23 ∧ 0 ≤ 0 ≤ 59 ∧ 0 = 0 ∧ 0 = 0.
Proof.
  apply (get_user_input_target_time
           (machine true ["/repo/src"; "2025-02-01"; "9:00"])
           (snd (get_user_input (machine true ["/repo/src"; "2025-02-01"; "9:00"])))
           ["repo"; "src"] ["repo"] (DateTime (Date 2025 2 1) 9 0 0 0)).
  apply run_eq. vm_compute. reflexivity.
Defined.

Lemma folder_prompt_outside_repository_witness :
  while_input folder_prompt folder_step (machine true ["/tmp"; "/repo/src"]) =
  while_input folder_prompt folder_step
    (put_stdout "Please make sure the folder is inside a git repository."
       (put_stdout "Error: No git repository found containing '/tmp'"
          (put_stdout folder_prompt (set_stdin ["/repo/src"] (machine true []))))).
Proof.
  apply (folder_prompt_outside_repository
           (machine true ["/tmp"; "/repo/src"]) "/tmp" ["/repo/src"] eq_refl).
  - vm_compute. reflexivity.
  - discriminate.
  - vm_compute. reflexivity.
  - apply find_from_none. vm_compute. reflexivity.
Defined.

Lemma date_prompt_blank_is_today_witness :
  fst (while_input date_prompt date_step (machine true [" "; "x"])) =
  Returned (Date 2025 1 31).
Proof.
  rewrite (date_prompt_blank_is_today (machine true [" "; "x"]) " " ["x"]
             eq_refl eq_refl eq_refl).
  reflexivity.
Defined.

Lemma past_target_moves_to_next_day_witness :
  Cal.valid_date (Cal.next_day (Date 2025 1 30)) = true.
Proof.
  apply (past_target_moves_to_next_day (Date 2025 1 30) 9 0
           (at_time (DateTime (Date 2025 1 30) 12 0 0 0) (machine true []))
           eq_refl eq_refl ltac:(vm_compute; reflexivity)).
Defined.

(* ===================================================================== *)
(** * More on job registration *)
(* ===================================================================== *)

Section RegistrationOutcomes.

Context {E : Type}.
Variable exec : list string → path → filesystem * E → outcome * (filesystem * E).

(** The search for the interpreter, by what [which] answers. *)
Lemma find_python3_outcome (s : State E) :
  let r := exec ["which"; "python3"] (cwd s) (fs s, ext s) in
  find_python3 exec s =
  (match fst r with
   | Ran c => Returned (if returncode c =? 0 then Str.strip (out c)
                        else "/usr/bin/python3")
   | NotStarted msg => Raised (SpawnError msg)
   end, after_child ["which"; "python3"] (snd r) s).
Proof.
  unfold find_python3, try_except, subprocess_check_output, bind, subprocess_run, ret.
  destruct (exec _ _ _) as [[c|msg] w]; cbn; [|done].
  by destruct (returncode c =? 0).
Qed.

Lemma write_file_not_dir (p : path) (c : content) (s s' : State E) (u : unit) :
  write_file p c s = (Returned u, s') → fs s !! p ≠ Some Dir.
Proof.
  unfold write_file. destruct (Str.has_nul _); [done|]. destruct (negb _); [done|].
  by destruct (fs s !! p) as [[|? ?]|].
Qed.

(** The steps of a registration that returns. *)
Lemma create_launchd_plist_steps
    (folder repo script : string) (target : datetime)
    (s s' : State E) (p : path) (l : string) :
  create_launchd_plist exec folder repo target script s = (Returned (p, l), s') →
  let r := exec ["which"; "python3"] (cwd s) (fs s, ext s) in
  let logs := Path.join (Path.dirname (Path.abspath (cwd s) script)) "logs" in
  ∃ c f2 f3 x,
    fst r = Ran c ∧
    makedirs_go (fst (snd r)) [] logs = (Returned tt, f2) ∧
    makedirs_go f2 [] (launchd_dir s) = (Returned tt, f3) ∧
    f3 !! p ≠ Some Dir ∧
    l = job_label (cwd s) folder target ∧
    p = Path.join (launchd_dir s) (l +:+ ".plist") ∧
    s' = set_fs (<[p := File (PlistData
                   (plist_data (cwd s)
                      (if returncode c =? 0 then Str.strip (out c) else "/usr/bin/python3")
                      folder repo target script)) x]> f3)
           (set_fs f3 (set_fs f2 (after_child ["which"; "python3"] (snd r) s))).
Proof.
  intros H r logs.
  unfold create_launchd_plist, get in H. unfold bind at 1 2 in H.
  rewrite find_python3_outcome in H. fold r in H.
  destruct (fst r) as [c|msg]; [|done].
  unfold bind at 1 in H.
  destruct (os_makedirs _ _) as [[[]|e] s2] eqn:Hlogs; [|done].
  apply os_makedirs_returned in Hlogs as (f2 & Hf2 & ->).
  unfold bind at 1 in H.
  destruct (os_makedirs (launchd_dir s) _) as [[[]|e] s3] eqn:Hdir; [|done].
  apply os_makedirs_returned in Hdir as (f3 & Hf3 & ->).
  unfold bind at 1 in H.
  destruct (plistlib_dump _ _ _) as [[[]|e] s4] eqn:Hw; [|done].
  unfold plistlib_dump in Hw. destruct (xml_writable _).
  2:{ unfold bind, raise in Hw. by destruct (write_file _ _ _) as [[[]|?] ?]. }
  pose proof (write_file_not_dir _ _ _ _ _ Hw) as Hnd.
  apply write_file_returned in Hw as (_ & x & ->).
  unfold ret in H. injection H as <- <- <-.
  exists c, f2, f3, x. done.
Qed.

(** X17: when [create_launchd_plist] returns, the path it returns is the
    label with [.plist] in the scheduler's directory of the user, and the
    file there holds a job definition with that label, not run at load,
    triggered at the month, day, hour and minute of the target, whose
    arguments after the interpreter are the absolute paths of the script, the
    folder and the repository. *)
Theorem create_launchd_plist_writes_job
    (folder repo script : string) (target : datetime)
    (s s' : State E) (p : path) (l : string) :
  create_launchd_plist exec folder repo target script s = (Returned (p, l), s') →
  p = Path.join (launchd_dir s) (l +:+ ".plist") ∧
  ∃ job x,
    fs s' !! p = Some (File (PlistData job) x) ∧
    Label job = l ∧
    RunAtLoad job = false ∧
    StartCalendarInterval job =
      CalendarInterval (month (dt_date target)) (day (dt_date target))
                       (hour target) (minute target) ∧
    tail (ProgramArguments job) =
      [Path.str (Path.abspath (cwd s) script);
       Path.str (Path.abspath (cwd s) folder);
       Path.str (Path.abspath (cwd s) repo)].
Proof.
  intros (c & f2 & f3 & x & _ & _ & _ & _ & Hl & Hp & ->)%create_launchd_plist_steps.
  split; [done|]. eexists _, x. cbn [fs set_fs].
  rewrite lookup_insert_eq. split; [reflexivity|]. by rewrite Hl.
Qed.

(** X18: the interpreter in the job definition is what [which python3]
    printed, stripped, when [which] exits with status 0, and
    [/usr/bin/python3] when it exits with any other status. *)
Theorem create_launchd_plist_interpreter
    (folder repo script : string) (target : datetime)
    (s s' : State E) (p : path) (l : string) (c : completed) :
  create_launchd_plist exec folder repo target script s = (Returned (p, l), s') →
  fst (exec ["which"; "python3"] (cwd s) (fs s, ext s)) = Ran c →
  ∃ job x,
    fs s' !! p = Some (File (PlistData job) x) ∧
    head (ProgramArguments job) =
      Some (if returncode c =? 0 then Str.strip (out c) else "/usr/bin/python3").
Proof.
  intros (c' & f2 & f3 & x & Hc & _ & _ & _ & _ & _ & ->)%create_launchd_plist_steps Hc'.
  rewrite Hc' in Hc. injection Hc as <-.
  eexists _, x. cbn [fs set_fs]. by rewrite lookup_insert_eq.
Qed.

(** X19: when [which] cannot be started, its exception is not caught (the
    handler is for a non-zero exit status only): [create_launchd_plist]
    raises before any directory or file is made. *)
Theorem create_launchd_plist_which_missing
    (folder repo script msg : string) (target : datetime) (s : State E) :
  fst (exec ["which"; "python3"] (cwd s) (fs s, ext s)) = NotStarted msg →
  create_launchd_plist exec folder repo target script s =
  (Raised (SpawnError msg),
   after_child ["which"; "python3"]
     (snd (exec ["which"; "python3"] (cwd s) (fs s, ext s))) s).
Proof.
  intros H. unfold create_launchd_plist, get. unfold bind at 1 2.
  rewrite find_python3_outcome. by rewrite H.
Qed.

Lemma makedirs_go_isdir (p : path) (f f' : filesystem) :
  makedirs_go f [] p = (Returned tt, f') → FS.isdir f' p = true.
Proof.
  intros H. unfold FS.isdir. destruct p as [|c p]; [done|].
  pose proof (makedirs_go_made _ _ _ _ H (length (c :: p)) ltac:(cbn; lia)) as Hl.
  rewrite firstn_all in Hl. cbn [app] in Hl. by rewrite Hl.
Qed.

Lemma isdir_kept (f f' : filesystem) (p : path) :
  (∀ q v, f !! q = Some v → f' !! q = Some v) →
  FS.isdir f p = true → FS.isdir f' p = true.
Proof.
  intros Hk. unfold FS.isdir. destruct p as [|c p]; [done|].
  destruct (f !! (c :: p)) as [[|? ?]|] eqn:Hq; try done.
  by rewrite (Hk _ _ Hq).
Qed.

(** What a registration that returns leaves on the disk. *)
Lemma create_launchd_plist_disk
    (folder repo script : string) (target : datetime)
    (s s' : State E) (p : path) (l : string) :
  create_launchd_plist exec folder repo target script s = (Returned (p, l), s') →
  FS.isdir (fs s') (Path.join (Path.dirname (Path.abspath (cwd s) script)) "logs") = true ∧
  FS.isdir (fs s') (launchd_dir s) = true ∧
  ∀ q v, q ≠ p →
         fst (snd (exec ["which"; "python3"] (cwd s) (fs s, ext s))) !! q = Some v →
         fs s' !! q = Some v.
Proof.
  intros (c & f2 & f3 & x & _ & Hf2 & Hf3 & Hnd & _ & _ & ->)%create_launchd_plist_steps.
  cbn [fs set_fs].
  assert (∀ q : path, FS.isdir f3 q = true →
                      FS.isdir (<[p:=File (PlistData
                        (plist_data (cwd s)
                           (if returncode c =? 0 then Str.strip (out c)
                            else "/usr/bin/python3") folder repo target script)) x]> f3) q
                      = true) as Hins.
  { intros q. unfold FS.isdir. destruct q as [|a q]; [done|].
    destruct (f3 !! (a :: q)) as [[|? ?]|] eqn:Hq; try done. intros _.
    rewrite lookup_insert_ne; [by rewrite Hq|]. congruence. }
  split; [|split].
  - apply Hins. apply (isdir_kept f2); [apply (makedirs_go_kept _ _ _ _ Hf3)|].
    apply (makedirs_go_isdir _ _ _ Hf2).
  - apply Hins. apply (makedirs_go_isdir _ _ _ Hf3).
  - intros q v Hq Hv. rewrite lookup_insert_ne by done.
    apply (makedirs_go_kept _ _ _ _ Hf3). by apply (makedirs_go_kept _ _ _ _ Hf2).
Qed.

(** X20: when [create_launchd_plist] returns, the [logs] directory beside
    the script and the scheduler's directory exist as directories, and every
    file and directory that was there after [which] ran, other than the job
    definition written, is still there unchanged. *)
Theorem create_launchd_plist_keeps_files
    (folder repo script : string) (target : datetime)
    (s s' : State E) (p : path) (l : string) :
  create_launchd_plist exec folder repo target script s = (Returned (p, l), s') →
  FS.isdir (fs s') (Path.join (Path.dirname (Path.abspath (cwd s) script)) "logs") = true ∧
  FS.isdir (fs s') (launchd_dir s) = true ∧
  ∀ q v, q ≠ p →
         fst (snd (exec ["which"; "python3"] (cwd s) (fs s, ext s))) !! q = Some v →
         fs s' !! q = Some v.
Proof. apply create_launchd_plist_disk. Qed.

End RegistrationOutcomes.

(* ===================================================================== *)
(** * The setup script as a whole *)
(* ===================================================================== *)

Section MainOutcomes.

Context {E : Type}.
Variable exec : list string → path → filesystem * E → outcome * (filesystem * E).

(** Loading the job never raises; it answers [None] when [launchctl] ran
    and returned 0, and [Some false] with a message otherwise. *)
Lemma load_job_outcome (p : path) (s : State E) :
  let r := exec ["launchctl"; "load"; Path.str p] (cwd s) (fs s, ext s) in
  ∃ answer s',
    load_job exec p s = (Returned answer, s') ∧
    spawned s' = spawned s ++ [["launchctl"; "load"; Path.str p]] ∧
    cwd s' = cwd s ∧ home s' = home s ∧ fs s' = fst (snd r) ∧
    match fst r with
    | Ran c =>
        if returncode c =? 0 then answer = None ∧ stdout s' = stdout s
        else answer = Some false ∧
             stdout s' = stdout s ++ [Str.nl +:+ "Error loading scheduler: " +:+ err c]
    | NotStarted msg =>
        answer = Some false ∧
        stdout s' = stdout s ++ [Str.nl +:+ "Error loading scheduler: " +:+ msg]
    end.
Proof.
  unfold load_job, try_except, bind, subprocess_run, print, ret.
  destruct (exec _ _ _) as [[c|msg] w]; cbn.
  - destruct (returncode c =? 0); cbn; eexists _, _; by repeat split.
  - eexists _, _. by repeat split.
Qed.

Lemma load_job_summary (p : path) (s : State E) :
  ∃ answer s',
    load_job exec p s = (Returned answer, s') ∧
    spawned s' = spawned s ++ [["launchctl"; "load"; Path.str p]] ∧
    fs s' = fst (snd (exec ["launchctl"; "load"; Path.str p] (cwd s) (fs s, ext s))) ∧
    ((answer = None ∧ stdout s' = stdout s) ∨
     (answer = Some false ∧
      ∃ msg, stdout s' = stdout s ++ [Str.nl +:+ "Error loading scheduler: " +:+ msg])).
Proof.
  destruct (load_job_outcome p s) as (answer & s' & Hrun & Hsp & _ & _ & Hfs & Hans).
  exists answer, s'. split; [done|]. split; [done|]. split; [done|].
  revert Hans. destruct (fst (exec _ _ _)) as [c|msg].
  - destruct (returncode c =? 0); intros Hans; [by left|]. right. destruct Hans. eauto.
  - intros Hans. right. destruct Hans. eauto.
Qed.

Lemma write_file_frame (p : path) (c : content) (s s' : State E) (r : result unit) :
  write_file p c s = (r, s') →
  spawned s' = spawned s ∧ cwd s' = cwd s ∧ home s' = home s ∧ stdout s' = stdout s.
Proof.
  unfold write_file. destruct (Str.has_nul _); [by intros [= <- <-]|].
  destruct (negb _); [by intros [= <- <-]|].
  destruct (fs s !! p) as [[|? ?]|]; [by intros [= <- <-]..|].
  destruct p; by intros [= <- <-].
Qed.

Lemma os_chmod_755_frame (p : path) (s s' : State E) (r : result unit) :
  os_chmod_755 p s = (r, s') →
  spawned s' = spawned s ∧ cwd s' = cwd s ∧ home s' = home s ∧ stdout s' = stdout s.
Proof.
  unfold os_chmod_755. destruct (fs s !! p) as [[|? ?]|]; by intros [= <- <-].
Qed.

(** X21: when [main] returns, the programs it has run are [which python3]
    and then [launchctl load] on a job definition in the scheduler's
    directory, and no other (git is never run by the setup); it returns
    [True] after the closing rule of the summary, and [False] after the line
    "Error loading scheduler: ...". *)
Theorem main_runs_which_then_launchctl (script_file : string) (s s' : State E) (b : bool) :
  main exec script_file s = (Returned b, s') →
  ∃ label,
    spawned s' = spawned s ++
      [["which"; "python3"];
       ["launchctl"; "load"; Path.str (Path.join (launchd_dir s) (label +:+ ".plist"))]] ∧
    if b then last (stdout s') = Some rule
    else ∃ msg, last (stdout s') = Some (Str.nl +:+ "Error loading scheduler: " +:+ msg).
Proof.
  unfold main. unfold bind at 1.
  destruct (get_user_input s) as [[[[folder repo] target]|e] s1] eqn:Hin; [|done].
  apply get_user_input_steps in Hin as [(Hcwd1 & _ & _ & Hhome1 & Hsp1 & _) _].
  unfold get. unfold bind at 1. unfold bind at 1.
  set (commit_script := Path.join (Path.dirname (Path.abspath (cwd s1) script_file))
                          "git_commit_executor.py").
  destruct ((if negb (FS.exists_ (fs s1) commit_script)
             then write_file commit_script ExecutorTemplate;; os_chmod_755 commit_script
             else ret ()) s1) as [[[]|e] s2] eqn:Hscript; [|done].
  assert (spawned s2 = spawned s1 ∧ home s2 = home s1) as [Hsp2 Hhome2].
  { destruct (negb _).
    - unfold bind in Hscript.
      destruct (write_file _ _ _) as [[[]|?] sw] eqn:Hw; [|done].
      apply write_file_frame in Hw as (? & _ & ? & _).
      apply os_chmod_755_frame in Hscript as (? & _ & ? & _). split; congruence.
    - by injection Hscript as <-. }
  unfold bind at 1.
  destruct (create_launchd_plist _ _ _ _ _ _) as [[[p l]|e] s3] eqn:Hjob; [|done].
  apply create_launchd_plist_steps in Hjob
    as (c & f2 & f3 & x & _ & _ & _ & _ & _ & Hp & ->).
  cbn [fst snd]. unfold bind at 1.
  match goal with
  | |- context [load_job exec p ?st] =>
      destruct (load_job_summary p st) as (answer & s4 & Hload & Hsp4 & _ & Hans)
  end.
  rewrite Hload. intros Hmain. exists l.
  assert (launchd_dir s2 = launchd_dir s) as Hld.
  { apply launchd_dir_home. congruence. }
  cbn [spawned set_fs after_child] in Hsp4.
  rewrite Hp, Hld, Hsp2, Hsp1, <- app_assoc in Hsp4. cbn [app] in Hsp4.
  destruct Hans as [[-> _]|[-> [msg Hout]]].
  - unfold bind, print, ret in Hmain. injection Hmain as <- <-. cbn.
    split; [done|]. by rewrite last_snoc.
  - unfold ret in Hmain. injection Hmain as <- <-.
    split; [done|]. exists msg. by rewrite Hout, last_snoc.
Qed.

Lemma label_plist_not_executor (l : string) (folder : string) (cwd : path)
    (target : datetime) :
  job_label cwd folder target +:+ ".plist" ≠ "git_commit_executor.py".
Proof. unfold job_label. discriminate. Qed.

(** X22: with tools that leave the filesystem alone, when [main] returns
    the executor script is beside the setup script: written from the
    template and made executable if it was missing, and left as it was if it
    was there. *)
Theorem main_installs_executor (script_file : string) (s s' : State E) (b : bool) :
  (∀ cmd dir w, fst (snd (exec cmd dir w)) = fst w) →
  main exec script_file s = (Returned b, s') →
  let script := Path.join (Path.dirname (Path.abspath (cwd s) script_file))
                  "git_commit_executor.py" in
  (FS.exists_ (fs s) script = false →
   fs s' !! script = Some (File ExecutorTemplate true)) ∧
  (∀ v, fs s !! script = Some v → fs s' !! script = Some v).
Proof.
  intros Hkeep. unfold main. unfold bind at 1.
  destruct (get_user_input s) as [[[[folder repo] target]|e] s1] eqn:Hin; [|done].
  apply get_user_input_steps in Hin as [(Hcwd1 & Hfs1 & _) _].
  unfold get. unfold bind at 1. unfold bind at 1. rewrite Hcwd1, Hfs1.
  intros Hmain. cbv zeta in *.
  set (script := Path.join (Path.dirname (Path.abspath (cwd s) script_file))
                   "git_commit_executor.py") in *.
  destruct ((if negb (FS.exists_ (fs s) script)
             then write_file script ExecutorTemplate;; os_chmod_755 script
             else ret ()) s1) as [[[]|e] s2] eqn:Hscript; [|done].
  assert ((FS.exists_ (fs s) script = false →
           fs s2 !! script = Some (File ExecutorTemplate true)) ∧
          (∀ v, fs s !! script = Some v → fs s2 !! script = Some v)) as Hs2.
  { unfold FS.exists_ in *. unfold script, Path.join in *.
    destruct (Path.dirname _ ++ ["git_commit_executor.py"]) as [|a q] eqn:Hq.
    { by destruct (Path.dirname (Path.abspath (cwd s) script_file)). }
    destruct (fs s !! (a :: q)) as [v|] eqn:Hv; cbn [negb] in Hscript.
    - injection Hscript as <-. split; [done|]. intros v' [= <-]. by rewrite Hfs1.
    - split; [|done]. intros _. unfold bind in Hscript.
      destruct (write_file _ _ _) as [[[]|?] sw] eqn:Hw; [|done].
      unfold write_file in Hw. rewrite Hfs1, Hv in Hw.
      destruct (Str.has_nul _); [done|].
      destruct (negb _); [done|]. injection Hw as <-.
      unfold os_chmod_755 in Hscript. cbn [fs set_fs] in Hscript.
      rewrite lookup_insert_eq in Hscript. injection Hscript as <-.
      cbn [fs set_fs]. by rewrite lookup_insert_eq. }
  unfold bind at 1 in Hmain.
  destruct (create_launchd_plist _ _ _ _ _ _) as [[[p l]|e] s3] eqn:Hjob; [|done].
  pose proof (create_launchd_plist_disk _ _ _ _ _ _ _ _ _ Hjob) as (_ & _ & Hkept).
  apply create_launchd_plist_steps in Hjob as (_ & _ & _ & _ & _ & _ & _ & _ & Hl & Hp & _).
  rewrite Hkeep in Hkept. cbn [fst] in Hkept.
  assert (script ≠ p) as Hne.
  { rewrite Hp, Hl. unfold script, Path.join. intros [_ Heq]%app_inj_tail.
    symmetry in Heq. by apply label_plist_not_executor in Heq. }
  cbn [fst snd] in Hmain. unfold bind at 1 in Hmain.
  destruct (load_job_summary p s3) as (answer & s4 & Hload & _ & Hfs4 & Hans).
  rewrite Hload in Hmain. rewrite Hkeep in Hfs4. cbn [fst] in Hfs4.
  assert (fs s' = fs s3) as ->.
  { destruct Hans as [[-> _]|[-> _]].
    - unfold bind, print, ret in Hmain. injection Hmain as _ <-. by cbn.
    - unfold ret in Hmain. by injection Hmain as _ <-. }
  destruct Hs2 as [Hnew Hold]. split.
  - intros Hmiss. apply Hkept; [done|]. by apply Hnew.
  - intros v Hv. apply Hkept; [done|]. by apply Hold.
Qed.

End MainOutcomes.

(* ===================================================================== *)
(** * More on the resolver and the executor *)
(* ===================================================================== *)

(** X9: when [find_git_repo] finds a repository for a path, the walk
    started from any directory between that repository and the path finds
    the same repository; in particular the repository resolves to itself. *)
Theorem find_git_repo_same_below (fs : filesystem) (cwd : path) (p : string) (r q : path) :
  find_git_repo fs cwd p = Some r →
  r `prefix_of` q → q `prefix_of` Path.abspath cwd p →
  find_git_repo_from fs q = Some r.
Proof.
  unfold find_git_repo. intros (Hr & Hrp & Hg & Hnear)%find_from_some Hrq Hqp.
  apply find_from_some. repeat split; try done.
  intros a Ha Haq Hag. apply Hnear; try done. by transitivity q.
Qed.

Lemma find_git_repo_same_below_witness :
  find_git_repo_from (fs (machine true [])) ["repo"; "src"] = Some ["repo"].
Proof.
  apply (find_git_repo_same_below (fs (machine true [])) [] "/repo/src/a/b"
           ["repo"] ["repo"; "src"]).
  - reflexivity.
  - by exists ["src"].
  - by exists ["a"; "b"].
Defined.

Section ExecutorOutcomes.

Context {E : Type}.
Variable exec : list string → path → filesystem * E → outcome * (filesystem * E).

(** X7: given a number of arguments other than two, the executor prints
    the usage line and exits with status 1; nothing else changes and
    nothing is spawned. *)
Theorem executor_rejects_wrong_argument_count (argv : list string) (s : State E) :
  length argv ≠ 3%nat →
  run_script (executor_main exec argv) s =
    (1, put_stdout "Usage: git_commit_executor.py <folder_path> <repo_path>" s) ∧
  spawned (snd (run_script (executor_main exec argv) s)) = spawned s.
Proof.
  intros H. by rewrite (executor_usage exec argv s H).
Qed.

(** X8: given two arguments of which the second names a directory that
    [os.chdir] can enter, every directory named on the way being there, the
    executor exits with status 0 whatever git does, and leaves the process
    in that directory. *)
Theorem executor_exits_0_in_directory (exe folder repo : string) (s : State E)
    (root : path) :
  chdir_target (fs s) (cwd s) repo = Returned root →
  fst (run_script (executor_main exec [exe; folder; repo]) s) = 0 ∧
  cwd (snd (run_script (executor_main exec [exe; folder; repo]) s)) = root.
Proof.
  intros [Hcd _]%os_chdir_into.
  destruct (commit_folder_returns_after_chdir exec folder repo s _ Hcd)
    as (b & s' & Hrun & Hcwd).
  by rewrite (executor_exit_0 exec exe folder repo s s' b Hrun).
Qed.

End ExecutorOutcomes.

Lemma executor_exits_0_in_directory_witness :
  fst (run_script (executor_main tools_exec ["x"; "/tmp"; "/tmp"]) (machine true [])) = 0.
Proof.
  apply (executor_exits_0_in_directory tools_exec "x" "/tmp" "/tmp" (machine true [])
           ["tmp"] ltac:(vm_compute; reflexivity)).
Defined.

Lemma executor_rejects_wrong_argument_count_witness :
  run_script (executor_main tools_exec ["git_commit_executor.py"; "/repo/src"])
             (machine true []) =
  (1, put_stdout "Usage: git_commit_executor.py <folder_path> <repo_path>"
        (machine true [])).
Proof.
  apply (executor_rejects_wrong_argument_count tools_exec
           ["git_commit_executor.py"; "/repo/src"] (machine true [])).
  discriminate.
Defined.

Lemma create_launchd_plist_writes_job_witness :
  ["home"; "me"; "Library"; "LaunchAgents"; "com.gitcommit.mysrc.202502011200.plist"] =
  Path.join (launchd_dir (machine true [])) ("com.gitcommit.mysrc.202502011200" +:+ ".plist").
Proof.
  apply (create_launchd_plist_writes_job tools_exec "/repo/My-Src" "/repo"
           "/opt/autocommit/git_commit_executor.py" (noon 2025 2 1)
           (machine true []) registered).
  apply run_eq. vm_compute. reflexivity.
Defined.

Lemma create_launchd_plist_interpreter_witness :
  ∃ job x,
    fs (snd (create_launchd_plist (scripted which_fails) "/repo/src" "/repo"
               (noon 2025 2 1) "/opt/autocommit/git_commit_executor.py"
               (machine true [])))
    !! ["home"; "me"; "Library"; "LaunchAgents"; "com.gitcommit.src.202502011200.plist"]
    = Some (File (PlistData job) x) ∧
    head (ProgramArguments job) = Some "/usr/bin/python3".
Proof.
  apply (create_launchd_plist_interpreter (scripted which_fails) "/repo/src" "/repo"
           "/opt/autocommit/git_commit_executor.py" (noon 2025 2 1)
           (machine true []) _ _ "com.gitcommit.src.202502011200"
           (Completed 1 "" "")).
  - apply run_eq. vm_compute. reflexivity.
  - reflexivity.
Defined.

Lemma create_launchd_plist_which_missing_witness :
  fst (create_launchd_plist (scripted no_git) "/repo/src" "/repo" (noon 2025 2 1)
         "/opt/autocommit/git_commit_executor.py" (machine true [])) =
  Raised (SpawnError "[Errno 2] No such file or directory: 'git'").
Proof.
  rewrite (create_launchd_plist_which_missing (scripted no_git) "/repo/src" "/repo"
             "/opt/autocommit/git_commit_executor.py"
             "[Errno 2] No such file or directory: 'git'" (noon 2025 2 1)
             (machine true []) eq_refl).
  reflexivity.
Defined.

Lemma create_launchd_plist_keeps_files_witness :
  FS.isdir (fs registered) ["opt"; "autocommit"; "logs"] = true.
Proof.
  apply (create_launchd_plist_keeps_files tools_exec "/repo/My-Src" "/repo"
           "/opt/autocommit/git_commit_executor.py" (noon 2025 2 1)
           (machine true []) registered
           ["home"; "me"; "Library"; "LaunchAgents"; "com.gitcommit.mysrc.202502011200.plist"]
           "com.gitcommit.mysrc.202502011200").
  apply run_eq. vm_compute. reflexivity.
Defined.

Lemma main_runs_which_then_launchctl_witness :
  ∃ label,
    spawned (snd (main tools_exec "/opt/autocommit/schedule_git_commit.py"
                    (machine true typed_answers))) =
    [] ++ [["which"; "python3"];
           ["launchctl"; "load";
            Path.str (Path.join (launchd_dir (machine true typed_answers))
                        (label +:+ ".plist"))]] ∧
    last (stdout (snd (main tools_exec "/opt/autocommit/schedule_git_commit.py"
                         (machine true typed_answers)))) = Some rule.
Proof.
  apply (main_runs_which_then_launchctl tools_exec "/opt/autocommit/schedule_git_commit.py"
           (machine true typed_answers) _ true).
  apply run_eq. vm_compute. reflexivity.
Defined.

Lemma main_installs_executor_witness :
  fs (snd (main (scripted all_succeed) "/opt/autocommit/schedule_git_commit.py"
             (machine true typed_answers)))
  !! ["opt"; "autocommit"; "git_commit_executor.py"] =
  Some (File ExecutorTemplate true).
Proof.
  assert (main (scripted all_succeed) "/opt/autocommit/schedule_git_commit.py"
            (machine true typed_answers) =
          (Returned true,
           snd (main (scripted all_succeed) "/opt/autocommit/schedule_git_commit.py"
                  (machine true typed_answers)))) as Hrun.
  { apply run_eq. vm_compute. reflexivity. }
  apply (proj1 (main_installs_executor (scripted all_succeed)
                  "/opt/autocommit/schedule_git_commit.py" (machine true typed_answers) _ true
                  (fun cmd dir w => eq_refl) Hrun)).
  vm_compute. reflexivity.
Defined.
